(** * Comparators.ts: a shallow embedding and its verified properties

    The development follows [src/main/Comparators.ts]: first the fragment of
    the JavaScript runtime the comparators rely on (numbers, strings, values,
    truthiness, the two equalities), then the collaborators imported from
    other files of the toolkit, then one module per comparator class, and
    finally the theorems. *)

From Stdlib Require Import ZArith NArith List Bool String Ascii Lia.
From Stdlib Require Import DecimalString.
Import ListNotations.
Local Open Scope Z_scope.

(** ** The JavaScript runtime fragment *)

Module Js.

(** A JavaScript number.  The model keeps [NaN], the integer values and
    the two infinities ([Inf false] is Infinity, [Inf true] is -Infinity).
    Char codes, lengths and valid time values are integers.  Arithmetic
    on integers is exact, where the doubles of the language round beyond
    2^53: what is stated of a difference of arbitrary integers is its sign
    and whether it is zero, which rounding keeps.  Fractions and the sign
    of zero are outside the model. *)
Inductive number : Type :=
  | NaN
  | Fin (z : Z)
  | Inf (minus : bool).

(** [a - b] *)
Definition sub (a b : number) : number :=
  match a, b with
  | Fin x, Fin y => Fin (x - y)
  | Inf s, Fin _ => Inf s
  | Fin _, Inf s => Inf (negb s)
  | Inf s, Inf t => if Bool.eqb s t then NaN else Inf s
  | _, _ => NaN
  end.

(** unary [-a] *)
Definition neg (a : number) : number :=
  match a with
  | Fin x => Fin (- x)
  | Inf s => Inf (negb s)
  | NaN => NaN
  end.

(** [a == b] and [a === b] on two numbers: [NaN] equals nothing. *)
Definition num_eq (a b : number) : bool :=
  match a, b with
  | Fin x, Fin y => x =? y
  | Inf s, Inf t => Bool.eqb s t
  | _, _ => false
  end.

(** [a != b] on two numbers. *)
Definition num_neq (a b : number) : bool := negb (num_eq a b).

(** Math.sign, used to state sign-wise properties. *)
Definition sign (a : number) : number :=
  match a with
  | Fin x => Fin (Z.sgn x)
  | Inf s => if s then Fin (-1) else Fin 1
  | NaN => NaN
  end.

(** A JavaScript string: the sequence of its UTF-16 code units. *)
Definition jsstring : Type := list N.

(** The JavaScript string with the code units of an ASCII literal. *)
Fixpoint str (s : string) : jsstring :=
  match s with
  | EmptyString => []
  | String c rest => N_of_ascii c :: str rest
  end.

(** [s.charCodeAt(i)]: the code unit at [i], [NaN] out of range. *)
Definition charCodeAt (s : jsstring) (i : nat) : number :=
  match nth_error s i with
  | Some c => Fin (Z.of_N c)
  | None => NaN
  end.

(** [s.length] *)
Definition length (s : jsstring) : nat := List.length s.

(** A number made from a length or an index. *)
Definition of_nat (n : nat) : number := Fin (Z.of_nat n).

Fixpoint str_eq (a b : jsstring) : bool :=
  match a, b with
  | [], [] => true
  | x :: a', y :: b' => N.eqb x y && str_eq a' b'
  | _, _ => false
  end.

(** A Date object: the reference that gives it its identity and its time
    value, [NaN] for an invalid date. *)
Record Date : Type := mkDate { date_ref : nat; getTime : number }.

(** The values a comparator can be handed.  Objects carry the reference
    that gives them their identity; any object
    that is not a Date also carries the tag of its constructor. *)
Inductive value : Type :=
  | VUndefined
  | VNull
  | VBoolean (b : bool)
  | VNumber (n : number)
  | VString (s : jsstring)
  | VDate (d : Date)
  | VObject (ctor : nat) (ref : nat).

(** ToBoolean: the truthiness tested by [if (v)] and [v ? a : b]. *)
Definition ToBoolean (v : value) : bool :=
  match v with
  | VUndefined | VNull => false
  | VBoolean b => b
  | VNumber NaN => false
  | VNumber (Fin z) => negb (z =? 0)
  | VNumber (Inf _) => true
  | VString s => negb (str_eq s [])
  | VDate _ | VObject _ _ => true
  end.

Definition isObject (v : value) : bool :=
  match v with
  | VDate _ | VObject _ _ => true
  | _ => false
  end.

(** [v == null]: true of null and of undefined only. *)
Definition eq_null (v : value) : bool :=
  match v with
  | VUndefined | VNull => true
  | _ => false
  end.

(** [a === b] (IsStrictlyEqual). *)
Definition strict_eq (a b : value) : bool :=
  match a, b with
  | VUndefined, VUndefined => true
  | VNull, VNull => true
  | VBoolean x, VBoolean y => Bool.eqb x y
  | VNumber x, VNumber y => num_eq x y
  | VString x, VString y => str_eq x y
  | VDate d1, VDate d2 => Nat.eqb (date_ref d1) (date_ref d2)
  | VDate d1, VObject _ r2 => Nat.eqb (date_ref d1) r2
  | VObject _ r1, VDate d2 => Nat.eqb r1 (date_ref d2)
  | VObject _ r1, VObject _ r2 => Nat.eqb r1 r2
  | _, _ => false
  end.

(** The two conversions of the language whose results depend on text
    parsing or on user code are left to the runtime. *)
Class Conversions : Type := {
  (** ToNumber on a string (StringToNumber) *)
  StringToNumber : jsstring -> number;
  (** ToPrimitive on an object, with the default hint *)
  ToPrimitive : value -> value
}.

Section LooseEquality.

Context {conv : Conversions}.

(** A boolean operand of [==] is first replaced by its number. *)
Definition unbool (v : value) : value :=
  match v with
  | VBoolean true => VNumber (Fin 1)
  | VBoolean false => VNumber (Fin 0)
  | _ => v
  end.

(** [a == b] between two primitives whose booleans are already numbers. *)
Definition loose_eq_prim (a b : value) : bool :=
  match a, b with
  | (VUndefined | VNull), (VUndefined | VNull) => true
  | VNumber x, VNumber y => num_eq x y
  | VString x, VString y => str_eq x y
  | VNumber x, VString y => num_eq x (StringToNumber y)
  | VString x, VNumber y => num_eq (StringToNumber x) y
  | _, _ => false
  end.

(** [a == b] (IsLooselyEqual). *)
Definition loose_eq (a b : value) : bool :=
  match isObject a, isObject b with
  | true, true => strict_eq a b
  | true, false =>
      if eq_null b then false
      else loose_eq_prim (unbool (ToPrimitive a)) (unbool b)
  | false, true =>
      if eq_null a then false
      else loose_eq_prim (unbool a) (unbool (ToPrimitive b))
  | false, false => loose_eq_prim (unbool a) (unbool b)
  end.

End LooseEquality.

(** What a call leaves behind: a returned value or a thrown error. *)
Inductive exception : Type :=
  | IllegalArgumentException (message : option string).

Inductive completion (A : Type) : Type :=
  | Return (a : A)
  | Throw (e : exception).
Arguments Return {A} a.
Arguments Throw {A} e.

End Js.
Import Js.

Coercion Fin : Z >-> number.

(** ** What a comparator can be built from *)

(** A function object: its declared parameter count ([Function.length]) and
    its behaviour on two arguments.  Wrapped callables are taken to be
    total and free of side effects: a callable that throws or that changes
    state is outside the model, and nothing below is stated about one. *)
Record function : Type := mkFunction {
  arity : nat;
  call : value -> value -> value
}.

(** The runtime shapes of the argument typed
    [Function | Func2<any, any, any> | Comparator<any>], which TypeScript
    does not check at run time. *)
Inductive candidate : Type :=
  | Plain (v : value)
      (** no function, and no function under its "compare" key *)
  | Func (f : function)
      (** a function with no function under its "compare" key *)
  | FuncWithCompare (f : function) (compare_member : function)
      (** a function that carries a function under its "compare" key *)
  | Instance (compare_method : function)
      (** an instance of a subclass of AbstractComparator *)
  | Duck (compare_member : function)
      (** any other object with a function under its "compare" key *).

(** ** Collaborators from other files of the toolkit *)

Module Objects.

(** Modelled from the spec: Objects.isNull is absent from the sources; the
    spec names it "a null-check predicate" and says that "null/undefined
    values do not satisfy" the comparator capability. *)
Definition isNull (c : candidate) : bool :=
  match c with
  | Plain v => eq_null v
  | _ => false
  end.

End Objects.

Module Types.

(** [c["compare"]] when Types.isFunction accepts it. *)
Definition compare_function (c : candidate) : option function :=
  match c with
  | Instance f | Duck f | FuncWithCompare _ f => Some f
  | Plain _ | Func _ => None
  end.

(** Modelled from the spec: Types.isNumber is absent from the sources; the
    spec speaks of "a numeric value". *)
Definition isNumber (v : value) : bool :=
  match v with
  | VNumber _ => true
  | _ => false
  end.

(** The results of the runtime-type classifier. *)
Inductive type : Type :=
  | TString
  | TNumber
  | TBoolean
  | TDate
  | TObject (ctor : nat)
  | TNone.

(** Modelled from the spec: Types.getType is absent from the sources; the
    spec describes "a runtime-type classifier distinguishing
    string/number/boolean/date from other types". *)
Definition getType (v : value) : type :=
  match v with
  | VString _ => TString
  | VNumber _ => TNumber
  | VBoolean _ => TBoolean
  | VDate _ => TDate
  | VObject ctor _ => TObject ctor
  | VUndefined | VNull => TNone
  end.

(** [t1 === t2] and [t1 == t2] on two results of getType. *)
Definition type_eq (t1 t2 : type) : bool :=
  match t1, t2 with
  | TString, TString | TNumber, TNumber | TBoolean, TBoolean
  | TDate, TDate | TNone, TNone => true
  | TObject c1, TObject c2 => Nat.eqb c1 c2
  | _, _ => false
  end.

End Types.

Module Functions.

(** Modelled from the spec: the enumeration FunctionType is absent from the
    sources, which name only its member UNKNOWN; the spec describes "a
    callable-type classifier distinguishing no function, plain function,
    and comparator-like object shapes". *)
Inductive FunctionType : Type :=
  | UNKNOWN
  | FUNCTION
  | COMPARATOR.

Definition is_UNKNOWN (t : FunctionType) : bool :=
  match t with
  | UNKNOWN => true
  | _ => false
  end.

(** [truePredicate()] *)
Definition truePredicate {A : Type} : A -> bool := fun _ => true.

End Functions.

Module Preconditions.

(** Modelled from the spec: Preconditions.checkTrue is absent from the
    sources; the spec describes "an invariant-assertion primitive that fails
    fast with a descriptive error when a boolean condition is false" and
    reports its failures "as invalid-argument failures". *)
Definition checkTrue (expression : bool) (message : option string)
  : completion unit :=
  if expression then Return tt else Throw (IllegalArgumentException message).

End Preconditions.

Module Collects.

(** Modelled from the spec: Collects.forEach is absent from the sources; the
    spec describes "an iteration operation that supports early termination
    via a stop predicate".  The consumer runs on the elements the consume
    predicate accepts, in order; after each element the break predicate is
    asked whether to stop.  [S] is the state the closures share. *)
Fixpoint forEach {A S : Type} (iterable : list A)
  (consumer : A -> S -> completion S) (consumePredicate : A -> bool)
  (breakPredicate : A -> S -> bool) (s : S) : completion S :=
  match iterable with
  | [] => Return s
  | element :: rest =>
      match (if consumePredicate element then consumer element s
             else Return s) with
      | Throw e => Throw e
      | Return s' =>
          if breakPredicate element s' then Return s'
          else forEach rest consumer consumePredicate breakPredicate s'
      end
  end.

End Collects.

(** The collaborators whose behaviour the sources do not determine. *)
Class Toolkit : Type := {
  (** Objects.hashCode *)
  hashCode : value -> number;
  (** Objects.equals, with its "ordered" flag *)
  equals : value -> value -> bool -> bool;
  (** Functions.judgeFuncType *)
  judgeFuncType : candidate -> Functions.FunctionType;
  (** Functions.callFunction on two arguments *)
  callFunction : candidate -> value -> value -> value
}.

(** ** The comparator contract *)

(** [interface Comparator<E>]: [R] is what a call of [compare] yields, a
    number for the stateless comparators. *)
Record Comparator (E R : Type) : Type := mkComparator {
  compare : E -> E -> R
}.
Arguments mkComparator {E R} compare.
Arguments compare {E R} c e1 e2.

(** [isComparator(c)] *)
Definition isComparator (c : candidate) : bool :=
  if Objects.isNull c then false
  else
    match c with
    | Instance _ => true
    | _ =>
        match Types.compare_function c with
        | Some func => (2 <=? arity func)%nat
        | None => false
        end
    end.

(** ** The primitive comparators *)

(** [class NumberComparator] *)
Definition NumberComparator : Comparator number number :=
  mkComparator (fun e1 e2 => sub e1 e2).

(** A variable typed [string] at run time: TypeScript lets null and
    undefined through. *)
Inductive nullable (A : Type) : Type :=
  | Null
  | Undefined
  | NonNull (a : A).
Arguments Null {A}.
Arguments Undefined {A}.
Arguments NonNull {A} a.

Module StringComparator.

(** [e == null] *)
Definition is_null {A : Type} (e : nullable A) : bool :=
  match e with
  | NonNull _ => false
  | _ => true
  end.

(** The [while (i < minLength)] loop, entered at index [i] with
    [remaining = minLength - i] iterations ahead. *)
Fixpoint while_loop (remaining i : nat) (e1 e2 : jsstring) : number :=
  match remaining with
  | O => sub (of_nat (Js.length e1)) (of_nat (Js.length e2))
  | S remaining' =>
      let delta := sub (charCodeAt e1 i) (charCodeAt e2 i) in
      if num_eq delta 0 then while_loop remaining' (S i) e1 e2
      else delta
  end.

Definition compare_strings (e1 e2 : jsstring) : number :=
  let minLength := Nat.min (Js.length e1) (Js.length e2) in
  while_loop minLength 0 e1 e2.

Definition compare_nullable (e1 e2 : nullable jsstring) : number :=
  match e1, e2 with
  | NonNull s1, NonNull s2 => compare_strings s1 s2
  | _, _ =>
      if is_null e1 && is_null e2 then Fin 0
      else if is_null e1 then Fin (-1) else Fin 1
  end.

End StringComparator.

(** [class StringComparator] *)
Definition StringComparator : Comparator (nullable jsstring) number :=
  mkComparator StringComparator.compare_nullable.

(** [class DateComparator] *)
Definition DateComparator : Comparator Date number :=
  mkComparator (fun e1 e2 => sub (getTime e1) (getTime e2)).

(** A value of the declared type [Boolean]: a primitive boolean, or a
    wrapper object [new Boolean(b)], which has an identity of its own. *)
Inductive Boolean : Type :=
  | Primitive (b : bool)
  | Wrapper (ref : nat) (b : bool).

Module BooleanComparator.

(** [e1 == e2] on two Booleans: two wrapper objects are equal when they
    are the same object; a wrapper object set against a primitive is first
    converted to the boolean it wraps. *)
Definition loose_eq (e1 e2 : Boolean) : bool :=
  match e1, e2 with
  | Primitive b1, Primitive b2 => Bool.eqb b1 b2
  | Wrapper r1 _, Wrapper r2 _ => Nat.eqb r1 r2
  | Primitive b1, Wrapper _ b2 => Bool.eqb b1 b2
  | Wrapper _ b1, Primitive b2 => Bool.eqb b1 b2
  end.

(** The truthiness tested by [e1 ? 1 : -1]: an object is always truthy. *)
Definition truthy (e : Boolean) : bool :=
  match e with
  | Primitive b => b
  | Wrapper _ _ => true
  end.

End BooleanComparator.

(** [class BooleanComparator] *)
Definition BooleanComparator : Comparator Boolean number :=
  mkComparator (fun e1 e2 =>
    if BooleanComparator.loose_eq e1 e2 then Fin 0
    else if BooleanComparator.truthy e1 then Fin 1 else Fin (-1)).

(** [class HashedComparator] *)
Definition HashedComparator {tk : Toolkit} : Comparator value number :=
  mkComparator (fun e1 e2 => sub (hashCode e1) (hashCode e2)).

(** ** The combinators *)

(** [class ReverseComparator] *)
Definition ReverseComparator {E R : Type} (comparator : Comparator E R)
  : Comparator E R :=
  mkComparator (fun e1 e2 => compare comparator e2 e1).

(** [class IsComparator] *)
Definition IsComparator : Comparator value number :=
  mkComparator (fun e1 e2 => if strict_eq e1 e2 then Fin 0 else Fin 1).


(** [class DelegatableComparator] *)
Definition DelegatableComparator {E R : Type} (comparator : Comparator E R)
  : Comparator E R :=
  mkComparator (fun e1 e2 => compare comparator e1 e2).

(** ** Function adaptation *)

Module FunctionComparator.

(** [class FunctionComparator]: the field [comp]. *)
Record t : Type := mk { comp : candidate }.

(** [(<Comparator<any>>c).compare(e1, e2)], reached only when
    [isComparator(c)] holds, hence with a function under "compare". *)
Definition invoke_compare (c : candidate) (e1 e2 : value) : value :=
  match Types.compare_function c with
  | Some func => call func e1 e2
  | None => VUndefined
  end.

Section Methods.
Context {tk : Toolkit}.

(** [constructor(f)] *)
Definition new (f : candidate) : completion t :=
  match Preconditions.checkTrue
          (negb (Functions.is_UNKNOWN (judgeFuncType f)))
          (Some "argument is not a function"%string) with
  | Throw e => Throw e
  | Return _ => Return (mk f)
  end.

(** The value bound to [ret] in [compare]. *)
Definition raw (this : t) (e1 e2 : value) : value :=
  if isComparator (comp this) then invoke_compare (comp this) e1 e2
  else callFunction (comp this) e1 e2.

(** [compare(e1, e2)]: the truthiness of [ret] is tested first;
    [Types.isNumber(ret)] holds of the numbers only, and [ret] is then what
    is returned. *)
Definition compare_ (this : t) (e1 e2 : value) : number :=
  let ret := raw this e1 e2 in
  if ToBoolean ret then Fin 0
  else
    match ret with
    | VNumber n => n
    | _ => Fin 1
    end.

End Methods.
End FunctionComparator.

(** A FunctionComparator is a comparator. *)
Definition FunctionComparator {tk : Toolkit} (this : FunctionComparator.t)
  : Comparator value number :=
  mkComparator (FunctionComparator.compare_ this).

(** [functionComparator(f)] *)
Definition functionComparator {tk : Toolkit} (f : candidate)
  : completion FunctionComparator.t :=
  FunctionComparator.new f.

(** A comparator of the module handed over as a value: an instance of
    AbstractComparator whose [compare] takes two parameters. *)
Definition instance (c : Comparator value number) : candidate :=
  Instance (mkFunction 2 (fun e1 e2 => VNumber (compare c e1 e2))).

(** ** The composite comparator *)

Module CompositeComparator.

(** [class CompositeComparator]: the fields [comps] and [started]. *)
Record t : Type := mk {
  comps : list FunctionComparator.t;
  started : bool
}.

(** A method: it returns or throws, and leaves the object in a new state. *)
Definition method (A : Type) : Type := t -> completion A * t.

(** [constructor()] *)
Definition new : t := mk [] false.

(** [comps.isEmpty()] *)
Definition isEmpty {A : Type} (l : list A) : bool :=
  match l with
  | [] => true
  | _ :: _ => false
  end.

Section Methods.
Context {tk : Toolkit}.

(** [addComparator(comparator)] *)
Definition addComparator (comparator : candidate) : method unit :=
  fun this =>
    if negb (started this) then
      match FunctionComparator.new comparator with
      | Throw e => (Throw e, this)
      | Return fc => (Return tt, mk (comps this ++ [fc]) (started this))
      end
    else (Return tt, this).

(** [compare(e1, e2)] *)
Definition compare_ (e1 e2 : value) : method number :=
  fun this =>
    let this := mk (comps this) true in
    match Preconditions.checkTrue (negb (isEmpty (comps this))) None with
    | Throw e => (Throw e, this)
    | Return _ =>
        let result := Fin 0 in
        match Collects.forEach (comps this)
                (fun comparator _ =>
                   Return (FunctionComparator.compare_ comparator e1 e2))
                Functions.truePredicate
                (fun _ result => num_neq result 0)
                result with
        | Throw e => (Throw e, this)
        | Return result => (Return result, this)
        end
    end.

End Methods.
End CompositeComparator.

(** A CompositeComparator is a comparator whose calls run on its state. *)
Definition CompositeComparator {tk : Toolkit}
  : Comparator value (CompositeComparator.method number) :=
  mkComparator CompositeComparator.compare_.

(** [c != null] on an entry of [funcs]. *)
Definition neq_null (c : candidate) : bool :=
  match c with
  | Plain v => negb (eq_null v)
  | _ => true
  end.

(** [wrapComparators(...funcs)] *)
Definition wrapComparators {tk : Toolkit} (funcs : list candidate)
  : completion CompositeComparator.t :=
  let comparator := CompositeComparator.new in
  Collects.forEach funcs
    (fun c comparator =>
       match CompositeComparator.addComparator c comparator with
       | (Throw e, _) => Throw e
       | (Return _, comparator') => Return comparator'
       end)
    neq_null
    (fun _ _ => false)
    comparator.

(** ** The generic object comparator *)

Module ObjectComparator.

(** An [any] passed where a typed parameter is declared.  Each projection
    is exact on the values of its type, the only ones that reach it. *)
Definition string_arg (e : value) : nullable jsstring :=
  match e with
  | VString s => NonNull s
  | VUndefined => Undefined
  | _ => Null
  end.

Definition number_arg (e : value) : number :=
  match e with
  | VNumber n => n
  | _ => NaN
  end.

Definition boolean_arg (e : value) : Boolean :=
  Primitive
    match e with
    | VBoolean b => b
    | _ => ToBoolean e
    end.

Definition date_arg (e : value) : Date :=
  match e with
  | VDate d => d
  | _ => mkDate 0 NaN
  end.

Section Methods.
Context {conv : Conversions} {tk : Toolkit}.

(** [compare(e1, e2)] *)
Definition compare_ (e1 e2 : value) : number :=
  if loose_eq e1 e2 then Fin 0
  else if eq_null e1 then Fin (-1)
  else if eq_null e2 then Fin 1
  else
    let type1 := Types.getType e1 in
    let type2 := Types.getType e2 in
    if Types.type_eq type1 type2 then
      if Types.type_eq type1 Types.TString then
        compare StringComparator (string_arg e1) (string_arg e2)
      else if Types.type_eq type1 Types.TNumber then
        compare NumberComparator (number_arg e1) (number_arg e2)
      else if Types.type_eq type2 Types.TBoolean then
        compare BooleanComparator (boolean_arg e1) (boolean_arg e2)
      else if Types.type_eq type1 Types.TDate then
        compare DateComparator (date_arg e1) (date_arg e2)
      else compare HashedComparator e1 e2
    else compare HashedComparator e1 e2.

End Methods.
End ObjectComparator.

(** [class ObjectComparator] *)
Definition ObjectComparator {conv : Conversions} {tk : Toolkit}
  : Comparator value number :=
  mkComparator ObjectComparator.compare_.

(** ** The string-projected comparator *)

(** [e.toString()] on a value that is neither null nor undefined: the text
    of a Date or of an object is the runtime's or the user's, so the
    conversion is left to the runtime. *)
Class Printing : Type := {
  toString : value -> jsstring
}.

Module ToStringComparator.

(** [super(new StringComparator())]: the inherited field [comp]. *)
Definition comp : Comparator (nullable jsstring) number := StringComparator.

Section Methods.
Context {pr : Printing}.

(** [e == null ? e : e.toString()] *)
Definition project (e : value) : nullable jsstring :=
  if eq_null e then
    match e with
    | VUndefined => Undefined
    | _ => Null
    end
  else NonNull (toString e).

(** [compare(e1, e2)] *)
Definition compare_ (e1 e2 : value) : number :=
  compare comp (project e1) (project e2).

End Methods.
End ToStringComparator.

(** [class ToStringComparator] *)
Definition ToStringComparator {pr : Printing} : Comparator value number :=
  mkComparator ToStringComparator.compare_.

(** ** Sequences of calls on one composite comparator *)

Module Calls.

(** A call made on a composite comparator by its owner. *)
Inductive call : Type :=
  | AddComparator (comparator : candidate)
  | Compare (e1 e2 : value).

(** What the owner observes of a call. *)
Inductive observation : Type :=
  | Added (c : completion unit)
  | Compared (c : completion number).

Section Run.
Context {tk : Toolkit}.

Definition step (c : call) (this : CompositeComparator.t)
  : observation * CompositeComparator.t :=
  match c with
  | AddComparator comparator =>
      let (r, this') := CompositeComparator.addComparator comparator this in
      (Added r, this')
  | Compare e1 e2 =>
      let (r, this') := compare CompositeComparator e1 e2 this in
      (Compared r, this')
  end.

(** The calls run in order; a thrown error is caught by the owner and the
    next call is made on the state the failed call left. *)
Fixpoint run (cs : list call) (this : CompositeComparator.t)
  : list observation * CompositeComparator.t :=
  match cs with
  | [] => ([], this)
  | c :: rest =>
      let (o, this') := step c this in
      let (os, this'') := run rest this' in
      (o :: os, this'')
  end.

End Run.

Definition is_compare (c : call) : bool :=
  match c with
  | Compare _ _ => true
  | AddComparator _ => false
  end.

Definition is_compared (o : observation) : bool :=
  match o with
  | Compared _ => true
  | Added _ => false
  end.

End Calls.

(** ** One reading of the collaborators, to run the code on inputs *)

Module Sample.

(** Modelled from the spec: Functions.judgeFuncType is absent from the
    sources; the spec says "an object is treated as a comparator if it
    exposes a two-parameter compare operation; otherwise if it is callable
    it is wrapped", and that anything else is rejected. *)
Definition judgeFuncType (c : candidate) : Functions.FunctionType :=
  if isComparator c then Functions.COMPARATOR
  else
    match c with
    | Func _ | FuncWithCompare _ _ => Functions.FUNCTION
    | _ => Functions.UNKNOWN
    end.

(** Modelled from the spec: Functions.callFunction is absent from the
    sources; the spec says "invoke it as a two-argument callable". *)
Definition callFunction (c : candidate) (e1 e2 : value) : value :=
  match c with
  | Func f | FuncWithCompare f _ => call f e1 e2
  | _ => VUndefined
  end.

(** Modelled from the spec: Objects.hashCode is absent from the sources; the
    spec only asks for "an identity/structural hash function".  This one
    hashes a number to itself, a string to the sum of its code units, a
    boolean to 0 or 1 and an object to its reference. *)
Definition hashCode (v : value) : number :=
  match v with
  | VNumber n => n
  | VString s => Fin (Z.of_N (fold_right N.add 0%N s))
  | VBoolean b => if b then Fin 1 else Fin 0
  | VDate d => of_nat (date_ref d)
  | VObject _ r => of_nat r
  | VUndefined | VNull => Fin 0
  end.

(** Modelled from the spec: Objects.equals is absent from the sources; the
    spec names it "a deep-equality predicate with an ordered flag".  On the
    values of the model, which have no parts, it is strict equality. *)
Definition equals (e1 e2 : value) (ordered : bool) : bool := strict_eq e1 e2.

Definition toolkit : Toolkit :=
  Build_Toolkit hashCode equals judgeFuncType callFunction.

(** StringToNumber on the strings of decimal digits, the empty string
    included; any other string is read as [NaN]. *)
Fixpoint digits (acc : Z) (s : jsstring) : number :=
  match s with
  | [] => Fin acc
  | c :: rest =>
      if ((48 <=? c) && (c <=? 57))%N
      then digits (10 * acc + (Z.of_N c - 48)) rest
      else NaN
  end.

(** ToPrimitive on an object whose conversion yields its reference. *)
Definition primitive (v : value) : value :=
  match v with
  | VDate d => VNumber (of_nat (date_ref d))
  | VObject _ r => VNumber (of_nat r)
  | _ => v
  end.

Definition conversions : Conversions :=
  Build_Conversions (digits 0) primitive.

(** [toString()] on the values of the model: a string is its own text, a
    boolean reads true or false, NaN and the infinities read as their
    names and an integer reads as its decimal numeral; a Date and an
    object, whose text the model does not hold, read as their reference. *)
Definition toString (v : value) : jsstring :=
  match v with
  | VString s => s
  | VBoolean b => if b then str "true" else str "false"
  | VNumber NaN => str "NaN"
  | VNumber (Inf false) => str "Infinity"
  | VNumber (Inf true) => str "-Infinity"
  | VNumber (Fin z) => str (NilZero.string_of_int (Z.to_int z))
  | VDate d => str (NilZero.string_of_uint (Nat.to_uint (date_ref d)))
  | VObject _ r => str (NilZero.string_of_uint (Nat.to_uint r))
  | VUndefined => str "undefined"
  | VNull => str "null"
  end.

Definition printing : Printing := Build_Printing toString.

End Sample.

(** ** Notions used in the statements *)

(** Two results of a comparator that order their arguments in opposite
    directions: both are numbers with opposite signs, hence zero together. *)
Definition opposite_signs (r1 r2 : number) : Prop :=
  exists x y : Z, r1 = Fin x /\ r2 = Fin y /\ Z.sgn x = - Z.sgn y.

Module StringOrder.

(** The order the loop computes, by recursion on the two strings. *)
Fixpoint lexicographic (a b : jsstring) : number :=
  match a, b with
  | x :: a', y :: b' =>
      if (Z.of_N x - Z.of_N y =? 0) then lexicographic a' b'
      else Fin (Z.of_N x - Z.of_N y)
  | _, _ => Fin (Z.of_nat (List.length a) - Z.of_nat (List.length b))
  end.

End StringOrder.

(** The first result that is not 0, or 0 when there is none. *)
Fixpoint first_nonzero (results : list number) : number :=
  match results with
  | [] => Fin 0
  | r :: rest => if num_neq r 0 then r else first_nonzero rest
  end.

(** What [compare] throws on an empty chain. *)
Definition empty_chain_error : exception := IllegalArgumentException None.

(** The comparator that returns 0 on all inputs. *)
Definition always_zero : Comparator value number :=
  mkComparator (fun _ _ => Fin 0).

(** Collects.forEach with the break predicate asked before each element
    instead of after it: the other reading of "early termination via a
    stop predicate". *)
Fixpoint forEach_break_first {A S : Type} (iterable : list A)
  (consumer : A -> S -> completion S) (consumePredicate : A -> bool)
  (breakPredicate : A -> S -> bool) (s : S) : completion S :=
  match iterable with
  | [] => Return s
  | element :: rest =>
      if breakPredicate element s then Return s
      else
        match (if consumePredicate element then consumer element s
               else Return s) with
        | Throw e => Throw e
        | Return s' =>
            forEach_break_first rest consumer consumePredicate
              breakPredicate s'
        end
  end.

(** A result that orders the first argument before the second. *)
Definition negative (r : number) : Prop := exists z : Z, r = Fin z /\ z < 0.

(** A result that orders the first argument after the second. *)
Definition positive (r : number) : Prop := exists z : Z, r = Fin z /\ 0 < z.

(** ** Numbers *)

Lemma num_eq_zero (x : Z) : num_eq (Fin x) 0 = (x =? 0).
Proof. reflexivity. Qed.

Lemma num_neq_false (r : number) : num_neq r 0 = false -> r = Fin 0.
Proof.
  destruct r as [|z|s]; unfold num_neq; simpl; try discriminate.
  intros H. apply negb_false_iff, Z.eqb_eq in H. now subst.
Qed.

Lemma str_eq_refl (s : jsstring) : str_eq s s = true.
Proof.
  induction s as [|c s IH]; simpl; [reflexivity|].
  now rewrite N.eqb_refl, IH.
Qed.

Lemma str_eq_eq (a b : jsstring) : str_eq a b = true -> a = b.
Proof.
  revert b; induction a as [|x a IH]; intros [|y b]; simpl;
    try discriminate; [reflexivity|].
  intros H. apply andb_true_iff in H as [Hxy Hab].
  apply N.eqb_eq in Hxy. apply IH in Hab. now subst.
Qed.

Lemma opposite_signs_neg (x : Z) : opposite_signs (Fin x) (Fin (- x)).
Proof. exists x, (- x). repeat split. lia. Qed.

Lemma opposite_signs_zero (r1 r2 : number) :
  opposite_signs r1 r2 -> (r1 = Fin 0 <-> r2 = Fin 0).
Proof.
  intros (x & y & -> & -> & H). split; intros E; inversion E; subst; f_equal; lia.
Qed.

(** ** The string comparator *)

Module StringFacts.
Import StringComparator StringOrder.

Lemma charCodeAt_app (p : jsstring) (x : N) (a : jsstring) :
  charCodeAt (p ++ x :: a) (List.length p) = Fin (Z.of_N x).
Proof.
  unfold charCodeAt. rewrite nth_error_app2 by lia.
  now rewrite Nat.sub_diag.
Qed.

(** The loop entered at index [|p|] on two strings that share the prefix
    [p] computes the order of what follows the prefix. *)
Lemma while_loop_after_prefix (a : jsstring) :
  forall p b,
    while_loop (Nat.min (List.length a) (List.length b)) (List.length p)
      (p ++ a) (p ++ b) = lexicographic a b.
Proof.
  induction a as [|x a IH]; intros p b.
  - simpl. unfold of_nat, Js.length. rewrite !length_app. simpl.
    destruct b; simpl; f_equal; lia.
  - destruct b as [|y b].
    + simpl. unfold of_nat, Js.length. rewrite !length_app. simpl.
      f_equal; lia.
    + cbn [List.length Nat.min while_loop lexicographic].
      rewrite !charCodeAt_app. cbn [sub]. rewrite num_eq_zero.
      destruct (Z.of_N x - Z.of_N y =? 0) eqn:E; [|reflexivity].
      apply Z.eqb_eq in E. assert (x = y) by lia. subst y.
      specialize (IH (p ++ [x]) b).
      rewrite length_app in IH. simpl in IH.
      rewrite Nat.add_1_r, <- !app_assoc in IH. exact IH.
Qed.

Lemma compare_strings_lexicographic (e1 e2 : jsstring) :
  compare_strings e1 e2 = lexicographic e1 e2.
Proof. exact (while_loop_after_prefix e1 [] e2). Qed.

(** The loop equation of the source: the test [i < minLength] decides
    between one more iteration and the final length difference. *)
Lemma while_loop_unfold (minLength i : nat) (e1 e2 : jsstring) :
  while_loop (minLength - i) i e1 e2 =
    if (i <? minLength)%nat then
      let delta := sub (charCodeAt e1 i) (charCodeAt e2 i) in
      if num_eq delta 0 then while_loop (minLength - S i) (S i) e1 e2
      else delta
    else sub (of_nat (Js.length e1)) (of_nat (Js.length e2)).
Proof.
  destruct (i <? minLength)%nat eqn:E.
  - apply Nat.ltb_lt in E.
    replace (minLength - i)%nat with (S (minLength - S i)) by lia.
    reflexivity.
  - apply Nat.ltb_ge in E.
    replace (minLength - i)%nat with O by lia. reflexivity.
Qed.

Lemma lexicographic_prefix (p a b : jsstring) :
  lexicographic (p ++ a) (p ++ b) = lexicographic a b.
Proof.
  induction p as [|c p IH]; [reflexivity|].
  simpl. now rewrite Z.sub_diag.
Qed.

Lemma lexicographic_mismatch (p : jsstring) (c1 c2 : N) (r1 r2 : jsstring) :
  c1 <> c2 ->
  lexicographic (p ++ c1 :: r1) (p ++ c2 :: r2) = Fin (Z.of_N c1 - Z.of_N c2).
Proof.
  intros H. rewrite lexicographic_prefix. simpl.
  destruct (Z.of_N c1 - Z.of_N c2 =? 0) eqn:E; [|reflexivity].
  apply Z.eqb_eq in E. lia.
Qed.

Lemma lexicographic_extension_r (s t : jsstring) :
  lexicographic s (s ++ t) =
    Fin (Z.of_nat (List.length s) - Z.of_nat (List.length (s ++ t))).
Proof.
  rewrite <- (app_nil_r s) at 1. rewrite lexicographic_prefix.
  simpl. rewrite length_app. f_equal. lia.
Qed.

Lemma lexicographic_extension_l (s t : jsstring) :
  lexicographic (s ++ t) s =
    Fin (Z.of_nat (List.length (s ++ t)) - Z.of_nat (List.length s)).
Proof.
  rewrite <- (app_nil_r s) at 2. rewrite lexicographic_prefix.
  rewrite length_app. destruct t; simpl; f_equal; lia.
Qed.

Lemma lexicographic_refl (s : jsstring) : lexicographic s s = Fin 0.
Proof.
  induction s as [|c s IH]; [reflexivity|].
  simpl. now rewrite Z.sub_diag.
Qed.

Lemma lexicographic_antisym (a : jsstring) :
  forall b, lexicographic a b = neg (lexicographic b a).
Proof.
  induction a as [|x a IH]; intros [|y b]; simpl; try (f_equal; lia).
  destruct (Z.of_N x - Z.of_N y =? 0) eqn:E1;
    destruct (Z.of_N y - Z.of_N x =? 0) eqn:E2.
  - apply IH.
  - apply Z.eqb_eq in E1. apply Z.eqb_neq in E2. lia.
  - apply Z.eqb_neq in E1. apply Z.eqb_eq in E2. lia.
  - simpl. f_equal. lia.
Qed.

Lemma lexicographic_finite (a : jsstring) :
  forall b, exists z, lexicographic a b = Fin z.
Proof.
  induction a as [|x a IH]; intros [|y b]; simpl; eauto.
  destruct (Z.of_N x - Z.of_N y =? 0); eauto.
Qed.

(** Two strings differ at a first position or one is a prefix of the
    other: the two cases of the comparator leave nothing out. *)
Lemma mismatch_or_prefix (a : jsstring) :
  forall b,
    (exists p c1 r1 c2 r2, a = p ++ c1 :: r1 /\ b = p ++ c2 :: r2 /\ c1 <> c2)
    \/ (exists t, b = a ++ t) \/ (exists t, a = b ++ t).
Proof.
  induction a as [|x a IH]; intros b.
  - right; left. now exists b.
  - destruct b as [|y b].
    + right; right. now exists (x :: a).
    + destruct (N.eq_dec x y) as [->|Hxy].
      * destruct (IH b) as [(p & c1 & r1 & c2 & r2 & -> & -> & H)|[[t ->]|[t ->]]].
        -- left. exists (y :: p), c1, r1, c2, r2. now repeat split.
        -- right; left. now exists t.
        -- right; right. now exists t.
      * left. exists [], x, a, y, b. now repeat split.
Qed.

End StringFacts.

Example StringComparator_null_null :
  compare StringComparator Null Null = Fin 0.
Proof. reflexivity. Qed.

Example StringComparator_null_x :
  compare StringComparator Null (NonNull (str "x")) = Fin (-1).
Proof. reflexivity. Qed.

Example StringComparator_x_null :
  compare StringComparator (NonNull (str "x")) Null = Fin 1.
Proof. reflexivity. Qed.

Example StringComparator_ab_ac :
  compare StringComparator (NonNull (str "ab")) (NonNull (str "ac")) = Fin (-1).
Proof. reflexivity. Qed.

Example StringComparator_ab_aba :
  compare StringComparator (NonNull (str "ab")) (NonNull (str "aba")) = Fin (-1).
Proof. reflexivity. Qed.

Example StringComparator_a_a :
  compare StringComparator (NonNull (str "a")) (NonNull (str "a")) = Fin 0.
Proof. reflexivity. Qed.

(** C4.  The string comparator returns 0 on two null (or undefined)
    arguments; when exactly one argument is null it returns -1 if that is
    the first and 1 if that is the second, so null orders before non-null;
    on two strings that share a prefix [p] and then differ, it returns the
    difference of the char codes at the first mismatching position; on two
    strings one of which is a prefix of the other (no mismatch within the
    shorter length) it returns the difference of the lengths; hence a
    strict prefix orders before its extension. *)
Theorem StringComparator_compare_spec :
  (forall e1 e2 : nullable jsstring,
      StringComparator.is_null e1 = true ->
      StringComparator.is_null e2 = true ->
      compare StringComparator e1 e2 = Fin 0)
  /\ (forall (e1 : nullable jsstring) (s : jsstring),
         StringComparator.is_null e1 = true ->
         compare StringComparator e1 (NonNull s) = Fin (-1)
         /\ compare StringComparator (NonNull s) e1 = Fin 1)
  /\ (forall (p : jsstring) (c1 c2 : N) (r1 r2 : jsstring),
         c1 <> c2 ->
         compare StringComparator
           (NonNull (p ++ c1 :: r1)) (NonNull (p ++ c2 :: r2))
         = sub (charCodeAt (p ++ c1 :: r1) (List.length p))
               (charCodeAt (p ++ c2 :: r2) (List.length p))
         /\ compare StringComparator
              (NonNull (p ++ c1 :: r1)) (NonNull (p ++ c2 :: r2))
            = Fin (Z.of_N c1 - Z.of_N c2))
  /\ (forall s t : jsstring,
         compare StringComparator (NonNull s) (NonNull (s ++ t))
         = sub (of_nat (Js.length s)) (of_nat (Js.length (s ++ t)))
         /\ compare StringComparator (NonNull (s ++ t)) (NonNull s)
            = sub (of_nat (Js.length (s ++ t))) (of_nat (Js.length s)))
  /\ (forall s t : jsstring,
         t <> [] ->
         exists z : Z,
           compare StringComparator (NonNull s) (NonNull (s ++ t)) = Fin z
           /\ z < 0).
Proof.
  repeat split.
  - intros [| |s1] [| |s2]; simpl; intros; try discriminate; reflexivity.
  - destruct e1; try discriminate; reflexivity.
  - destruct e1; try discriminate; reflexivity.
  - cbn [compare StringComparator StringComparator.compare_nullable].
    rewrite StringFacts.compare_strings_lexicographic.
    rewrite !StringFacts.charCodeAt_app.
    now apply StringFacts.lexicographic_mismatch.
  - cbn [compare StringComparator StringComparator.compare_nullable].
    rewrite StringFacts.compare_strings_lexicographic.
    now apply StringFacts.lexicographic_mismatch.
  - cbn [compare StringComparator StringComparator.compare_nullable].
    rewrite StringFacts.compare_strings_lexicographic.
    apply StringFacts.lexicographic_extension_r.
  - cbn [compare StringComparator StringComparator.compare_nullable].
    rewrite StringFacts.compare_strings_lexicographic.
    apply StringFacts.lexicographic_extension_l.
  - intros s t Ht.
    exists (Z.of_nat (List.length s) - Z.of_nat (List.length (s ++ t))).
    cbn [compare StringComparator StringComparator.compare_nullable].
    rewrite StringFacts.compare_strings_lexicographic.
    split; [apply StringFacts.lexicographic_extension_r|].
    rewrite length_app. destruct t; [congruence|simpl; lia].
Qed.

Lemma StringComparator_compare_spec_witness :
  compare StringComparator Null Undefined = Fin 0
  /\ compare StringComparator Undefined (NonNull (str "x")) = Fin (-1)
  /\ compare StringComparator (NonNull (str "ab")) (NonNull (str "ac"))
     = Fin (98 - 99)
  /\ exists z : Z,
       compare StringComparator (NonNull (str "ab")) (NonNull (str "aba"))
       = Fin z /\ z < 0.
Proof.
  destruct StringComparator_compare_spec as (H1 & H2 & H3 & _ & H5).
  split; [apply (H1 Null Undefined); reflexivity|].
  split; [apply (H2 Undefined (str "x")); reflexivity|].
  split.
  - apply (H3 (str "a") 98%N 99%N [] []). discriminate.
  - apply (H5 (str "ab") (str "a")). discriminate.
Defined.

(** ** The reverse comparator *)

(** C5.  For every inner comparator [C], whatever a call of its [compare]
    yields, and all values [a] and [b], [reverse(C).compare(a, b)] is
    [C.compare(b, a)]. *)
Theorem ReverseComparator_compare_swaps
  (E R : Type) (C : Comparator E R) (a b : E) :
  compare (ReverseComparator C) a b = compare C b a.
Proof. reflexivity. Qed.

(** ** Antisymmetry of the ordering comparators *)

Lemma StringComparator_antisym (e1 e2 : nullable jsstring) :
  compare StringComparator e1 e2 = neg (compare StringComparator e2 e1)
  /\ exists z, compare StringComparator e1 e2 = Fin z.
Proof.
  destruct e1 as [| |s1], e2 as [| |s2]; simpl; try (split; eauto; fail).
  unfold StringComparator.compare_nullable.
  rewrite !StringFacts.compare_strings_lexicographic. split.
  - apply StringFacts.lexicographic_antisym.
  - apply StringFacts.lexicographic_finite.
Qed.





(** ** Function adaptation *)

Section FunctionComparatorFacts.
Context {tk : Toolkit}.

Lemma new_Return (f : candidate) (fc : FunctionComparator.t) :
  FunctionComparator.new f = Return fc -> fc = FunctionComparator.mk f.
Proof.
  unfold FunctionComparator.new.
  destruct (judgeFuncType f); simpl; congruence.
Qed.

(** What [compare] makes of the raw result: 0 when it is truthy, the
    result itself when it is a falsy number, 1 otherwise. *)
Lemma FunctionComparator_interpretation
  (this : FunctionComparator.t) (e1 e2 : value) :
  let ret := FunctionComparator.raw this e1 e2 in
  (ToBoolean ret = true -> FunctionComparator.compare_ this e1 e2 = Fin 0)
  /\ (forall n, ret = VNumber n -> ToBoolean ret = false ->
        FunctionComparator.compare_ this e1 e2 = n
        /\ (n = NaN \/ n = Fin 0))
  /\ (Types.isNumber ret = false -> ToBoolean ret = false ->
        FunctionComparator.compare_ this e1 e2 = Fin 1).
Proof.
  unfold FunctionComparator.compare_. cbv zeta.
  destruct (FunctionComparator.raw this e1 e2) as [| |b|n|s|d|c r];
    (split; [|split]);
    try (intros H; try rewrite H; simpl in *; congruence);
    try (intros m Hm; discriminate Hm);
    try (intros H1 H2; try rewrite H2; simpl in *; congruence).
  intros m Hm Hf. injection Hm as <-. rewrite Hf. split; [reflexivity|].
  destruct n as [|z|s]; [now left|right|discriminate].
  simpl in Hf. apply negb_false_iff, Z.eqb_eq in Hf. now subst.
Qed.

Lemma new_known (f : candidate) :
  judgeFuncType f <> Functions.UNKNOWN ->
  FunctionComparator.new f = Return (FunctionComparator.mk f).
Proof.
  unfold FunctionComparator.new.
  destruct (judgeFuncType f); simpl; congruence.
Qed.

Lemma new_unknown (f : candidate) :
  judgeFuncType f = Functions.UNKNOWN ->
  FunctionComparator.new f
  = Throw (IllegalArgumentException (Some "argument is not a function"%string)).
Proof. unfold FunctionComparator.new. now intros ->. Qed.

(** A raw result that is a number other than 0 and NaN is truthy. *)
Lemma compare_truthy_number
  (this : FunctionComparator.t) (e1 e2 : value) (z : Z) :
  FunctionComparator.raw this e1 e2 = VNumber (Fin z) ->
  z <> 0 ->
  FunctionComparator.compare_ this e1 e2 = Fin 0.
Proof.
  intros Hraw Hz.
  destruct (FunctionComparator_interpretation this e1 e2) as (Ht & _ & _).
  apply Ht. rewrite Hraw. simpl.
  apply negb_true_iff, Z.eqb_neq. exact Hz.
Qed.

Lemma raw_instance (c : Comparator value number) (e1 e2 : value) :
  FunctionComparator.raw (FunctionComparator.mk (instance c)) e1 e2
  = VNumber (compare c e1 e2).
Proof. reflexivity. Qed.

End FunctionComparatorFacts.

(** C1.  The code at the inputs that separate it from the claim: whenever
    the raw result of the wrapped callable or comparator is a number other
    than 0 and NaN, positive or negative, [compare] returns 0 and not that
    number. *)
Theorem FunctionComparator_compare_nonzero_number
  (tk : Toolkit) (this : FunctionComparator.t) (e1 e2 : value) (z : Z) :
  FunctionComparator.raw this e1 e2 = VNumber (Fin z) ->
  z <> 0 ->
  compare (FunctionComparator this) e1 e2 = Fin 0
  /\ compare (FunctionComparator this) e1 e2 <> Fin z.
Proof.
  intros Hraw Hz.
  assert (H0 : compare (FunctionComparator this) e1 e2 = Fin 0).
  { exact (compare_truthy_number this e1 e2 z Hraw Hz). }
  split; [exact H0|]. rewrite H0. intros E. inversion E. congruence.
Qed.

Lemma FunctionComparator_compare_nonzero_number_witness :
  compare (@ObjectComparator Sample.conversions Sample.toolkit)
    (VNumber (Fin 3)) (VNumber (Fin 5)) = Fin (-2)
  /\ @FunctionComparator.new Sample.toolkit
       (instance (@ObjectComparator Sample.conversions Sample.toolkit))
     = Return (FunctionComparator.mk
                 (instance (@ObjectComparator Sample.conversions Sample.toolkit)))
  /\ compare (@FunctionComparator Sample.toolkit
       (FunctionComparator.mk
          (instance (@ObjectComparator Sample.conversions Sample.toolkit))))
       (VNumber (Fin 3)) (VNumber (Fin 5)) = Fin 0.
Proof.
  split; [reflexivity|]. split; [reflexivity|].
  apply (FunctionComparator_compare_nonzero_number Sample.toolkit
           (FunctionComparator.mk
              (instance (@ObjectComparator Sample.conversions Sample.toolkit)))
           (VNumber (Fin 3)) (VNumber (Fin 5)) (-2)).
  - reflexivity.
  - lia.
Defined.

(** C7.  The constructor of FunctionComparator throws an
    IllegalArgumentException, and builds nothing, exactly when the
    classifier reports its argument as no function (UNKNOWN); for every
    argument classified otherwise it returns the comparator wrapping that
    argument.  The check is made by the constructor, before any call of
    [compare]. *)
Theorem FunctionComparator_new_spec (tk : Toolkit) (f : candidate) :
  (judgeFuncType f = Functions.UNKNOWN ->
   FunctionComparator.new f
   = Throw (IllegalArgumentException (Some "argument is not a function"%string)))
  /\ (judgeFuncType f <> Functions.UNKNOWN ->
      FunctionComparator.new f = Return (FunctionComparator.mk f)
      /\ functionComparator f = Return (FunctionComparator.mk f)).
Proof.
  split.
  - apply new_unknown.
  - intros H. unfold functionComparator. split; now apply new_known.
Qed.

Lemma FunctionComparator_new_spec_witness :
  @FunctionComparator.new Sample.toolkit (Plain (VNumber (Fin 5)))
  = Throw (IllegalArgumentException (Some "argument is not a function"%string))
  /\ @FunctionComparator.new Sample.toolkit
       (Func (mkFunction 2 (fun a b => VBoolean (strict_eq a b))))
     = Return (FunctionComparator.mk
                 (Func (mkFunction 2 (fun a b => VBoolean (strict_eq a b)))))
  /\ @FunctionComparator.new Sample.toolkit (instance IsComparator)
     = Return (FunctionComparator.mk (instance IsComparator)).
Proof.
  split; [|split].
  - apply (FunctionComparator_new_spec Sample.toolkit (Plain (VNumber (Fin 5)))).
    reflexivity.
  - apply (FunctionComparator_new_spec Sample.toolkit
             (Func (mkFunction 2 (fun a b => VBoolean (strict_eq a b))))).
    discriminate.
  - apply (FunctionComparator_new_spec Sample.toolkit (instance IsComparator)).
    discriminate.
Defined.

Example FunctionComparator_equality_predicate :
  let fc := FunctionComparator.mk
              (Func (mkFunction 2 (fun a b => VBoolean (strict_eq a b)))) in
  compare (@FunctionComparator Sample.toolkit fc)
    (VNumber (Fin 7)) (VNumber (Fin 7)) = Fin 0
  /\ compare (@FunctionComparator Sample.toolkit fc)
       (VNumber (Fin 7)) (VNumber (Fin 8)) = Fin 1.
Proof. split; reflexivity. Qed.

(** ** The composite comparator *)

Section CompositeComparatorFacts.
Context {tk : Toolkit}.
Import CompositeComparator Calls.

Lemma forEach_first_nonzero (f : FunctionComparator.t -> number)
  (chain : list FunctionComparator.t) :
  Collects.forEach chain (fun comparator _ => Return (f comparator))
    Functions.truePredicate (fun _ result => num_neq result 0) (Fin 0)
  = Return (first_nonzero (map f chain)).
Proof.
  induction chain as [|c chain IH]; [reflexivity|].
  cbn [Collects.forEach Functions.truePredicate map first_nonzero].
  destruct (num_neq (f c) 0) eqn:E; [reflexivity|].
  rewrite (num_neq_false _ E). exact IH.
Qed.

(** The result does not depend on whether the iteration asks its break
    predicate after or before each element. *)
Lemma forEach_break_first_first_nonzero
  (f : FunctionComparator.t -> number) (chain : list FunctionComparator.t) :
  forall r0 : number,
    forEach_break_first chain (fun comparator _ => Return (f comparator))
      Functions.truePredicate (fun _ result => num_neq result 0) r0
    = Return (if num_neq r0 0 then r0 else first_nonzero (map f chain)).
Proof.
  induction chain as [|c chain IH]; intros r0.
  - cbn [forEach_break_first map first_nonzero].
    destruct (num_neq r0 0) eqn:E; [reflexivity|].
    now rewrite (num_neq_false _ E).
  - cbn [forEach_break_first Functions.truePredicate map first_nonzero].
    destruct (num_neq r0 0); [reflexivity|]. apply IH.
Qed.

Lemma forEach_break_order (f : FunctionComparator.t -> number)
  (chain : list FunctionComparator.t) :
  forEach_break_first chain (fun comparator _ => Return (f comparator))
    Functions.truePredicate (fun _ result => num_neq result 0) (Fin 0)
  = Collects.forEach chain (fun comparator _ => Return (f comparator))
      Functions.truePredicate (fun _ result => num_neq result 0) (Fin 0).
Proof.
  rewrite forEach_break_first_first_nonzero, forEach_first_nonzero.
  reflexivity.
Qed.

(** On a chain that is not empty, [compare] returns the first nonzero
    result of the stored (adapted) comparators, taken in insertion order,
    and 0 when they all return 0; it leaves the chain as it was and the
    composite started. *)
Lemma compare_nonempty (this : t) (e1 e2 : value) :
  comps this <> [] ->
  compare CompositeComparator e1 e2 this
  = (Return (first_nonzero
               (map (fun c => FunctionComparator.compare_ c e1 e2)
                    (comps this))),
     mk (comps this) true).
Proof.
  destruct this as [[|c chain] s]; cbn [comps]; intros H; [congruence|].
  unfold CompositeComparator, compare, compare_.
  cbn [comps isEmpty negb Preconditions.checkTrue].
  now rewrite forEach_first_nonzero.
Qed.

Lemma compare_empty (this : t) (e1 e2 : value) :
  comps this = [] ->
  compare CompositeComparator e1 e2 this
  = (Throw empty_chain_error, mk [] true).
Proof.
  destruct this as [chain s]; cbn [comps]; intros ->. reflexivity.
Qed.

Lemma compare_state (this : t) (e1 e2 : value) :
  snd (compare CompositeComparator e1 e2 this) = mk (comps this) true.
Proof.
  destruct this as [[|c chain] s].
  - now rewrite compare_empty.
  - now rewrite compare_nonempty.
Qed.

Lemma addComparator_started (this : t) (comparator : candidate) :
  started this = true -> addComparator comparator this = (Return tt, this).
Proof. intros H. unfold addComparator. now rewrite H. Qed.

Lemma addComparator_fresh (this : t) (comparator : candidate) :
  started this = false ->
  judgeFuncType comparator <> Functions.UNKNOWN ->
  addComparator comparator this
  = (Return tt,
     mk (comps this ++ [FunctionComparator.mk comparator]) false).
Proof.
  intros Hs Hj. unfold addComparator. rewrite Hs. cbn [negb].
  now rewrite (new_known comparator Hj).
Qed.

Lemma started_eta (this : t) :
  started this = true -> mk (comps this) true = this.
Proof. destruct this as [chain s]. simpl. now intros ->. Qed.

(** Once started, no call changes the state. *)
Lemma step_started (c : call) (this : t) :
  started this = true -> snd (step c this) = this.
Proof.
  intros H. destruct c as [comparator|e1 e2]; unfold step.
  - now rewrite addComparator_started.
  - pose proof (compare_state this e1 e2) as Hc.
    destruct (compare CompositeComparator e1 e2 this) as [r this'].
    simpl in *. rewrite Hc. now apply started_eta.
Qed.

Lemma step_started_add (comparator : candidate) (this : t) :
  started this = true ->
  step (AddComparator comparator) this = (Added (Return tt), this).
Proof. intros H. unfold step. now rewrite addComparator_started. Qed.

Lemma run_cons (c : call) (cs : list call) (this : t) :
  run (c :: cs) this
  = (fst (step c this) :: fst (run cs (snd (step c this))),
     snd (run cs (snd (step c this)))).
Proof.
  cbn [run]. destruct (step c this) as [o this'].
  cbn [fst snd]. now destruct (run cs this').
Qed.

Lemma run_started (cs : list call) (this : t) :
  started this = true ->
  snd (run cs this) = this
  /\ filter is_compared (fst (run cs this))
     = fst (run (filter is_compare cs) this).
Proof.
  intros H. induction cs as [|c cs [IH1 IH2]]; [now split|].
  rewrite run_cons. cbn [fst snd]. rewrite (step_started c this H).
  split; [exact IH1|].
  destruct c as [comparator|e1 e2].
  - rewrite step_started_add by assumption. cbn [fst filter is_compared is_compare].
    exact IH2.
  - cbn [filter is_compare]. rewrite run_cons. cbn [fst].
    rewrite (step_started (Compare e1 e2) this H).
    assert (Hc : is_compared (fst (step (Compare e1 e2) this)) = true).
    { unfold step. now destruct (compare CompositeComparator e1 e2 this). }
    cbn [filter]. rewrite Hc. now rewrite IH2.
Qed.

Lemma wrapComparators_all_null (funcs : list candidate) (this : t) :
  forallb (fun c => negb (neq_null c)) funcs = true ->
  Collects.forEach funcs
    (fun c comparator =>
       match addComparator c comparator with
       | (Throw e, _) => Throw e
       | (Return _, comparator') => Return comparator'
       end)
    neq_null (fun _ _ => false) this
  = Return this.
Proof.
  induction funcs as [|c funcs IH]; [reflexivity|].
  cbn [forallb]. intros H. apply andb_true_iff in H as [Hc Hr].
  apply negb_true_iff in Hc. cbn [Collects.forEach]. rewrite Hc.
  exact (IH Hr).
Qed.

End CompositeComparatorFacts.

(** C2.  The code at the inputs that separate it from the claim: on the
    chain built by adding a comparator that always returns 0 and then a
    comparator whose result on the two arguments is a number other than 0,
    both additions succeed and [compare] returns 0, not the result of the
    second comparator. *)
Theorem CompositeComparator_zero_then_nonzero
  (tk : Toolkit) (C2 : Comparator value number) (e1 e2 : value) (z : Z) :
  judgeFuncType (instance always_zero) <> Functions.UNKNOWN ->
  judgeFuncType (instance C2) <> Functions.UNKNOWN ->
  compare C2 e1 e2 = Fin z ->
  z <> 0 ->
  fst (Calls.run
         [Calls.AddComparator (instance always_zero);
          Calls.AddComparator (instance C2);
          Calls.Compare e1 e2]
         CompositeComparator.new)
  = [Calls.Added (Return tt); Calls.Added (Return tt);
     Calls.Compared (Return (Fin 0))]
  /\ Fin 0 <> compare C2 e1 e2.
Proof.
  intros H1 H2 Hc Hz. split; [|rewrite Hc; intros E; inversion E; congruence].
  rewrite !run_cons. cbn [fst snd Calls.run Calls.step].
  rewrite addComparator_fresh by (reflexivity || assumption).
  cbn [fst snd CompositeComparator.comps app CompositeComparator.new].
  rewrite addComparator_fresh by (reflexivity || assumption).
  cbn [fst snd CompositeComparator.comps app].
  rewrite compare_nonempty by discriminate.
  cbn [fst snd CompositeComparator.comps map first_nonzero].
  rewrite (compare_truthy_number
             (FunctionComparator.mk (instance C2)) e1 e2 z);
    [reflexivity| |assumption].
  rewrite raw_instance. now rewrite Hc.
Qed.

Lemma CompositeComparator_zero_then_nonzero_witness :
  compare (@ObjectComparator Sample.conversions Sample.toolkit)
    (VNumber (Fin 3)) (VNumber (Fin 5)) = Fin (-2)
  /\ fst (@Calls.run Sample.toolkit
         [Calls.AddComparator (instance always_zero);
          Calls.AddComparator
            (instance (@ObjectComparator Sample.conversions Sample.toolkit));
          Calls.Compare (VNumber (Fin 3)) (VNumber (Fin 5))]
         CompositeComparator.new)
     = [Calls.Added (Return tt); Calls.Added (Return tt);
        Calls.Compared (Return (Fin 0))].
Proof.
  split; [reflexivity|].
  apply (CompositeComparator_zero_then_nonzero Sample.toolkit
           (@ObjectComparator Sample.conversions Sample.toolkit)
           (VNumber (Fin 3)) (VNumber (Fin 5)) (-2)).
  - discriminate.
  - discriminate.
  - reflexivity.
  - lia.
Defined.

(** C8.  [compare] on a composite comparator whose chain is empty throws an
    IllegalArgumentException and so never returns 0: on any state with an
    empty chain, on a freshly constructed composite, and on the composite
    that [wrapComparators] builds from entries that are all null or
    undefined, which it skips. *)
Theorem CompositeComparator_compare_empty_throws (tk : Toolkit) :
  (forall (this : CompositeComparator.t) (e1 e2 : value),
      CompositeComparator.comps this = [] ->
      fst (compare CompositeComparator e1 e2 this) = Throw empty_chain_error
      /\ fst (compare CompositeComparator e1 e2 this) <> Return (Fin 0))
  /\ (forall e1 e2 : value,
         fst (compare CompositeComparator e1 e2 CompositeComparator.new)
         = Throw empty_chain_error)
  /\ (forall (funcs : list candidate) (e1 e2 : value),
         forallb (fun c => negb (neq_null c)) funcs = true ->
         exists this : CompositeComparator.t,
           wrapComparators funcs = Return this
           /\ CompositeComparator.comps this = []
           /\ fst (compare CompositeComparator e1 e2 this)
              = Throw empty_chain_error).
Proof.
  split; [|split].
  - intros this e1 e2 H. rewrite compare_empty by assumption.
    split; [reflexivity|discriminate].
  - intros e1 e2. now rewrite compare_empty.
  - intros funcs e1 e2 H. exists CompositeComparator.new.
    split; [|split; [reflexivity|now rewrite compare_empty]].
    unfold wrapComparators. now apply wrapComparators_all_null.
Qed.

Lemma CompositeComparator_compare_empty_throws_witness :
  fst (compare (@CompositeComparator Sample.toolkit)
         (VNumber (Fin 1)) (VNumber (Fin 2)) (CompositeComparator.mk [] true))
  = Throw empty_chain_error
  /\ exists this : CompositeComparator.t,
       @wrapComparators Sample.toolkit [Plain VNull; Plain VUndefined]
       = Return this
       /\ CompositeComparator.comps this = []
       /\ fst (compare (@CompositeComparator Sample.toolkit)
                 (VNumber (Fin 1)) (VNumber (Fin 2)) this)
          = Throw empty_chain_error.
Proof.
  destruct (CompositeComparator_compare_empty_throws Sample.toolkit)
    as (H1 & _ & H3).
  split.
  - apply (H1 (CompositeComparator.mk [] true)). reflexivity.
  - apply (H3 [Plain VNull; Plain VUndefined]). reflexivity.
Defined.

(** C9.  After a call of [compare] on a composite comparator, whatever it
    returned or threw, every call of [addComparator] returns normally and
    leaves the state as it is, whatever its argument; and in every later
    sequence of calls the chain stays unchanged and the results of the
    [compare] calls are those of the same sequence without its
    [addComparator] calls. *)
Theorem CompositeComparator_addComparator_after_compare
  (tk : Toolkit) (this0 : CompositeComparator.t) (e1 e2 : value) :
  let this := snd (compare CompositeComparator e1 e2 this0) in
  CompositeComparator.comps this = CompositeComparator.comps this0
  /\ (forall comparator : candidate,
         CompositeComparator.addComparator comparator this
         = (Return tt, this))
  /\ (forall cs : list Calls.call,
         snd (Calls.run cs this) = this
         /\ filter Calls.is_compared (fst (Calls.run cs this))
            = fst (Calls.run (filter Calls.is_compare cs) this)).
Proof.
  cbv zeta. rewrite compare_state. split; [reflexivity|]. split.
  - intros comparator. now apply addComparator_started.
  - intros cs. now apply run_started.
Qed.

(** C10.  A call of [compare] on a composite comparator whose chain is
    empty throws, and yet leaves the composite started, with its chain
    still empty; after it every [addComparator] call returns without
    adding anything, every [compare] call throws again, and no sequence of
    calls changes the state. *)
Theorem CompositeComparator_failed_compare_freezes
  (tk : Toolkit) (this0 : CompositeComparator.t) (e1 e2 : value) :
  CompositeComparator.comps this0 = [] ->
  let this := snd (compare CompositeComparator e1 e2 this0) in
  fst (compare CompositeComparator e1 e2 this0) = Throw empty_chain_error
  /\ CompositeComparator.started this = true
  /\ CompositeComparator.comps this = []
  /\ (forall comparator : candidate,
         CompositeComparator.addComparator comparator this
         = (Return tt, this))
  /\ (forall e1' e2' : value,
         compare CompositeComparator e1' e2' this
         = (Throw empty_chain_error, this))
  /\ (forall cs : list Calls.call,
         snd (Calls.run cs this) = this
         /\ Forall (fun o => o = Calls.Added (Return tt)
                             \/ o = Calls.Compared (Throw empty_chain_error))
                   (fst (Calls.run cs this))).
Proof.
  intros H. cbv zeta. rewrite compare_empty by assumption. cbn [fst snd].
  split; [reflexivity|]. split; [reflexivity|]. split; [reflexivity|].
  split; [|split].
  - intros comparator. now apply addComparator_started.
  - intros e1' e2'. now rewrite compare_empty.
  - intros cs. split; [now apply run_started|].
    induction cs as [|c cs IH]; [constructor|].
    rewrite run_cons. cbn [fst].
    rewrite (step_started c (CompositeComparator.mk [] true) eq_refl).
    constructor; [|exact IH].
    destruct c as [comparator|e1' e2'].
    + left. now rewrite step_started_add.
    + right. unfold Calls.step. now rewrite compare_empty.
Qed.

Lemma CompositeComparator_failed_compare_freezes_witness :
  CompositeComparator.started CompositeComparator.new = false
  /\ fst (compare (@CompositeComparator Sample.toolkit)
            (VNumber (Fin 1)) (VNumber (Fin 2)) CompositeComparator.new)
     = Throw empty_chain_error
  /\ CompositeComparator.started
       (snd (compare (@CompositeComparator Sample.toolkit)
               (VNumber (Fin 1)) (VNumber (Fin 2)) CompositeComparator.new))
     = true.
Proof.
  split; [reflexivity|].
  destruct (CompositeComparator_failed_compare_freezes Sample.toolkit
              CompositeComparator.new (VNumber (Fin 1)) (VNumber (Fin 2)))
    as (H1 & H2 & _); [reflexivity|].
  split; assumption.
Defined.

(** ** The generic object comparator *)

Lemma type_eq_true (t1 t2 : Types.type) :
  Types.type_eq t1 t2 = true <-> t1 = t2.
Proof.
  destruct t1, t2; simpl; split; intros H;
    try discriminate; try reflexivity.
  - apply Nat.eqb_eq in H. now subst.
  - inversion H. apply Nat.eqb_refl.
Qed.


(** The projections are exact where the comparator applies them. *)
Lemma string_arg_exact (e : value) :
  Types.getType e = Types.TString ->
  exists s, e = VString s /\ ObjectComparator.string_arg e = NonNull s.
Proof. destruct e; simpl; intros H; try discriminate. eauto. Qed.

Lemma number_arg_exact (e : value) :
  Types.getType e = Types.TNumber ->
  exists n, e = VNumber n /\ ObjectComparator.number_arg e = n.
Proof. destruct e; simpl; intros H; try discriminate. eauto. Qed.

Lemma boolean_arg_exact (e : value) :
  Types.getType e = Types.TBoolean ->
  exists b, e = VBoolean b /\ ObjectComparator.boolean_arg e = Primitive b.
Proof. destruct e; simpl; intros H; try discriminate. eauto. Qed.

Lemma date_arg_exact (e : value) :
  Types.getType e = Types.TDate ->
  exists d, e = VDate d /\ ObjectComparator.date_arg e = d.
Proof. destruct e; simpl; intros H; try discriminate. eauto. Qed.

Section ObjectComparatorFacts.
Context {conv : Conversions} {tk : Toolkit}.

Lemma ObjectComparator_loosely_equal (e1 e2 : value) :
  loose_eq e1 e2 = true -> compare ObjectComparator e1 e2 = Fin 0.
Proof.
  intros H. cbn [compare ObjectComparator].
  unfold ObjectComparator.compare_. now rewrite H.
Qed.


Lemma ObjectComparator_strings (s1 s2 : jsstring) :
  compare ObjectComparator (VString s1) (VString s2)
  = compare StringComparator (NonNull s1) (NonNull s2).
Proof.
  cbn [compare ObjectComparator StringComparator].
  unfold ObjectComparator.compare_.
  replace (loose_eq (VString s1) (VString s2)) with (str_eq s1 s2)
    by reflexivity.
  destruct (str_eq s1 s2) eqn:E.
  - apply str_eq_eq in E. subst s2.
    unfold StringComparator.compare_nullable.
    rewrite StringFacts.compare_strings_lexicographic.
    now rewrite StringFacts.lexicographic_refl.
  - reflexivity.
Qed.

End ObjectComparatorFacts.




(** ** Further properties of the primitive comparators *)

Lemma num_eq_sym (a b : number) : num_eq a b = num_eq b a.
Proof.
  destruct a as [|x|s], b as [|y|t]; simpl; try reflexivity.
  - apply Z.eqb_sym.
  - now destruct s, t.
Qed.

Lemma str_eq_sym (a : jsstring) : forall b, str_eq a b = str_eq b a.
Proof.
  induction a as [|x a IH]; intros [|y b]; simpl; try reflexivity.
  now rewrite N.eqb_sym, IH.
Qed.

Lemma strict_eq_sym (a b : value) : strict_eq a b = strict_eq b a.
Proof.
  destruct a, b; simpl; try reflexivity;
    try apply Nat.eqb_sym.
  - now destruct b, b0.
  - apply num_eq_sym.
  - apply str_eq_sym.
Qed.

Lemma neg_involutive (r : number) : neg (neg r) = r.
Proof.
  destruct r as [|z|s]; simpl; [reflexivity|f_equal; lia|].
  now rewrite negb_involutive.
Qed.

Lemma lexicographic_zero (a : jsstring) :
  forall b, StringOrder.lexicographic a b = Fin 0 -> a = b.
Proof.
  induction a as [|x a IH]; intros [|y b]; simpl; intros H;
    try reflexivity; try (inversion H; lia).
  destruct (Z.of_N x - Z.of_N y =? 0) eqn:E.
  - apply Z.eqb_eq in E. assert (x = y) by lia. subst y.
    f_equal. now apply IH.
  - apply Z.eqb_neq in E. inversion H. lia.
Qed.

Lemma lexicographic_trans (a : jsstring) :
  forall b c,
    negative (StringOrder.lexicographic a b) ->
    negative (StringOrder.lexicographic b c) ->
    negative (StringOrder.lexicographic a c).
Proof.
  unfold negative.
  induction a as [|x a IH]; intros [|y b] [|w c]; simpl;
    intros (z1 & H1 & L1) (z2 & H2 & L2);
    try (inversion H1; inversion H2; lia);
    try (eexists; split; [reflexivity|]; inversion H1; inversion H2; lia).
  destruct (Z.eqb_spec (Z.of_N x - Z.of_N y) 0) as [E1|E1];
    destruct (Z.eqb_spec (Z.of_N y - Z.of_N w) 0) as [E2|E2];
    destruct (Z.eqb_spec (Z.of_N x - Z.of_N w) 0) as [E3|E3];
    try (inversion H1; inversion H2; lia);
    try (eexists; split; [reflexivity|]; inversion H1; inversion H2; lia).
  apply (IH b c); eauto.
Qed.

(** X1.  The string comparator always returns an integer, never NaN, and
    it returns 0 exactly when both arguments are null or undefined or both
    are the same string. *)
Theorem StringComparator_zero_iff_same (e1 e2 : nullable jsstring) :
  (exists z : Z, compare StringComparator e1 e2 = Fin z)
  /\ (compare StringComparator e1 e2 = Fin 0 <->
      (StringComparator.is_null e1 = true
       /\ StringComparator.is_null e2 = true)
      \/ (exists s : jsstring, e1 = NonNull s /\ e2 = NonNull s)).
Proof.
  split; [apply StringComparator_antisym|].
  destruct e1 as [| |s1], e2 as [| |s2]; simpl;
    try (split; [intros H; (discriminate H || (left; now split))
                |intros [[A B]|(s & A & B)]; (discriminate || reflexivity)]).
  unfold StringComparator.compare_nullable.
  rewrite StringFacts.compare_strings_lexicographic. split.
  - intros H. right. apply lexicographic_zero in H. subst. now exists s2.
  - intros [[A _]|(s & A & B)]; [discriminate|].
    inversion A; inversion B; subst. apply StringFacts.lexicographic_refl.
Qed.

(** X2.  The string comparator is transitive on strings and nulls: when it
    orders [e1] before [e2] and [e2] before [e3], it orders [e1] before
    [e3]. *)
Theorem StringComparator_transitive (e1 e2 e3 : nullable jsstring) :
  negative (compare StringComparator e1 e2) ->
  negative (compare StringComparator e2 e3) ->
  negative (compare StringComparator e1 e3).
Proof.
  assert (Hpos : ~ negative (Fin 1)).
  { intros (z & H & L). inversion H. lia. }
  assert (Hzero : ~ negative (Fin 0)).
  { intros (z & H & L). inversion H. lia. }
  assert (Hneg : negative (Fin (-1))).
  { exists (-1). split; [reflexivity|lia]. }
  destruct e1 as [| |s1], e2 as [| |s2], e3 as [| |s3]; simpl;
    intros H1 H2; try contradiction; try assumption.
  unfold StringComparator.compare_nullable in *.
  rewrite StringFacts.compare_strings_lexicographic in *.
  now apply (lexicographic_trans s1 s2 s3).
Qed.

Lemma StringComparator_transitive_witness :
  negative (compare StringComparator Null (NonNull (str "ab")))
  /\ negative (compare StringComparator
                 (NonNull (str "ab")) (NonNull (str "abc")))
  /\ negative (compare StringComparator Null (NonNull (str "abc"))).
Proof.
  assert (H1 : negative (compare StringComparator Null (NonNull (str "ab")))).
  { exists (-1). split; [reflexivity|lia]. }
  assert (H2 : negative (compare StringComparator
                           (NonNull (str "ab")) (NonNull (str "abc")))).
  { exists (-1). split; [reflexivity|lia]. }
  split; [exact H1|]. split; [exact H2|].
  exact (StringComparator_transitive Null (NonNull (str "ab"))
           (NonNull (str "abc")) H1 H2).
Defined.

(** X3.  On integers the number comparator returns a negative result
    exactly when the first is smaller, 0 exactly when they are equal and a
    positive result exactly when the first is larger; as soon as one
    argument is NaN the result is NaN. *)
Theorem NumberComparator_orders_integers :
  (forall a b : Z,
      (negative (compare NumberComparator (Fin a) (Fin b)) <-> a < b)
      /\ (compare NumberComparator (Fin a) (Fin b) = Fin 0 <-> a = b)
      /\ (positive (compare NumberComparator (Fin a) (Fin b)) <-> b < a))
  /\ (forall x : number,
         compare NumberComparator NaN x = NaN
         /\ compare NumberComparator x NaN = NaN).
Proof.
  split.
  - intros a b. simpl. unfold negative, positive. repeat split.
    + intros (z & H & L). inversion H. lia.
    + intros H. exists (a - b). split; [reflexivity|lia].
    + intros H. inversion H. lia.
    + intros ->. f_equal. lia.
    + intros (z & H & L). inversion H. lia.
    + intros H. exists (a - b). split; [reflexivity|lia].
  - intros x. split; [reflexivity|now destruct x].
Qed.

(** X4.  The date comparator orders two valid dates by their time values
    alone, whatever objects they are: its result is negative exactly when
    the first is earlier, 0 exactly when the times are equal and positive
    exactly when the first is later; when one of the dates is invalid the
    result is NaN. *)
Theorem DateComparator_orders_by_time (d1 d2 : Date) :
  (forall t1 t2 : Z,
      getTime d1 = Fin t1 -> getTime d2 = Fin t2 ->
      (negative (compare DateComparator d1 d2) <-> t1 < t2)
      /\ (compare DateComparator d1 d2 = Fin 0 <-> t1 = t2)
      /\ (positive (compare DateComparator d1 d2) <-> t2 < t1))
  /\ (getTime d1 = NaN \/ getTime d2 = NaN ->
      compare DateComparator d1 d2 = NaN).
Proof.
  split.
  - intros t1 t2 H1 H2. simpl. rewrite H1, H2. simpl.
    unfold negative, positive. repeat split.
    + intros (z & H & L). inversion H. lia.
    + intros H. exists (t1 - t2). split; [reflexivity|lia].
    + intros H. inversion H. lia.
    + intros ->. f_equal. lia.
    + intros (z & H & L). inversion H. lia.
    + intros H. exists (t1 - t2). split; [reflexivity|lia].
  - simpl. intros [H|H]; rewrite H; [reflexivity|].
    now destruct (getTime d1).
Qed.

Lemma DateComparator_orders_by_time_witness :
  compare DateComparator (mkDate 7 (Fin 1000)) (mkDate 8 (Fin 1000)) = Fin 0
  /\ compare DateComparator (mkDate 7 NaN) (mkDate 8 (Fin 1000)) = NaN.
Proof.
  destruct (DateComparator_orders_by_time
              (mkDate 7 (Fin 1000)) (mkDate 8 (Fin 1000))) as [H _].
  destruct (H 1000 1000) as (_ & H0 & _); [reflexivity|reflexivity|].
  split; [apply H0; reflexivity|].
  apply (DateComparator_orders_by_time (mkDate 7 NaN) (mkDate 8 (Fin 1000))).
  left. reflexivity.
Defined.

(** X5.  The boolean comparator orders false before true: on two
    primitive booleans it returns what the number comparator returns on 0
    for false and 1 for true, hence only -1, 0 or 1, and 0 exactly on
    equal arguments. *)
Theorem BooleanComparator_false_before_true (b1 b2 : bool) :
  compare BooleanComparator (Primitive b1) (Primitive b2)
  = compare NumberComparator (Fin (Z.b2z b1)) (Fin (Z.b2z b2))
  /\ (compare BooleanComparator (Primitive b1) (Primitive b2) = Fin 0 <->
      b1 = b2)
  /\ (negative (compare BooleanComparator (Primitive b1) (Primitive b2)) <->
      b1 = false /\ b2 = true).
Proof.
  unfold negative.
  destruct b1, b2; simpl;
    (split; [reflexivity|split; split]);
    try (intros _; reflexivity);
    try (intros H; discriminate H);
    try (intros [A B]; discriminate);
    try (intros (z & H & L); inversion H; lia);
    try (intros _; split; reflexivity).
  intros _. exists (-1). split; [reflexivity|lia].
Qed.

(** X6.  Reversing twice gives back the comparator's results; and the
    reverse of the number comparator and of the string comparator returns
    the negation of what the comparator returns, so it sorts in descending
    order. *)
Theorem ReverseComparator_involutive_and_descending :
  (forall (E R : Type) (C : Comparator E R) (a b : E),
      compare (ReverseComparator (ReverseComparator C)) a b = compare C a b)
  /\ (forall a b : number,
         compare (ReverseComparator NumberComparator) a b
         = neg (compare NumberComparator a b))
  /\ (forall e1 e2 : nullable jsstring,
         compare (ReverseComparator StringComparator) e1 e2
         = neg (compare StringComparator e1 e2)).
Proof.
  split; [reflexivity|]. split.
  - intros [|a|s] [|b|t]; simpl; try reflexivity;
      try (f_equal; lia); try (now destruct t); now destruct s, t.
  - intros e1 e2. cbn [compare ReverseComparator].
    apply StringComparator_antisym.
Qed.

(** X7.  The identity-equality comparator returns only 0 or 1, returns the
    same in both directions, and returns 0 on a value compared with itself
    unless that value is NaN, for which it returns 1. *)
Theorem IsComparator_same_or_different (e1 e2 : value) :
  (compare IsComparator e1 e2 = Fin 0 \/ compare IsComparator e1 e2 = Fin 1)
  /\ compare IsComparator e1 e2 = compare IsComparator e2 e1
  /\ (e1 <> VNumber NaN -> compare IsComparator e1 e1 = Fin 0)
  /\ compare IsComparator (VNumber NaN) (VNumber NaN) = Fin 1.
Proof.
  simpl. split; [destruct (strict_eq e1 e2); auto|].
  split; [now rewrite strict_eq_sym|]. split; [|reflexivity].
  intros H. destruct e1 as [| |b|[|z|m]|s|d|c r]; simpl;
    try reflexivity; try congruence.
  - now destruct b.
  - now rewrite Z.eqb_refl.
  - now destruct m.
  - now rewrite str_eq_refl.
  - now rewrite Nat.eqb_refl.
  - now rewrite Nat.eqb_refl.
Qed.

Lemma IsComparator_same_or_different_witness :
  compare IsComparator (VString (str "a")) (VString (str "a")) = Fin 0.
Proof.
  apply (IsComparator_same_or_different (VString (str "a")) VNull).
  discriminate.
Defined.

Lemma StringComparator_zero_iff_same_witness :
  compare StringComparator (NonNull (str "ab")) (NonNull (str "ab")) = Fin 0.
Proof.
  apply (StringComparator_zero_iff_same (NonNull (str "ab")) (NonNull (str "ab"))).
  right. exists (str "ab"). split; reflexivity.
Defined.

Lemma NumberComparator_orders_integers_witness :
  negative (compare NumberComparator (Fin 3) (Fin 5)).
Proof.
  destruct NumberComparator_orders_integers as [H _].
  apply (H 3 5). lia.
Defined.

Lemma BooleanComparator_false_before_true_witness :
  negative (compare BooleanComparator (Primitive false) (Primitive true)).
Proof.
  apply (BooleanComparator_false_before_true false true).
  split; reflexivity.
Defined.

(** ** Further properties of function adaptation *)

Section FunctionComparatorMore.
Context {tk : Toolkit}.

Lemma compare_non_number (this : FunctionComparator.t) (e1 e2 : value) :
  Types.isNumber (FunctionComparator.raw this e1 e2) = false ->
  FunctionComparator.compare_ this e1 e2
  = if ToBoolean (FunctionComparator.raw this e1 e2) then Fin 0 else Fin 1.
Proof.
  intros H.
  destruct (FunctionComparator_interpretation this e1 e2) as (Ht & _ & Hf).
  destruct (ToBoolean (FunctionComparator.raw this e1 e2)) eqn:E.
  - now apply Ht.
  - now apply Hf.
Qed.

Lemma compare_range (this : FunctionComparator.t) (e1 e2 : value) :
  FunctionComparator.compare_ this e1 e2 = Fin 0
  \/ FunctionComparator.compare_ this e1 e2 = Fin 1
  \/ (FunctionComparator.compare_ this e1 e2 = NaN
      /\ FunctionComparator.raw this e1 e2 = VNumber NaN).
Proof.
  destruct (FunctionComparator_interpretation this e1 e2) as (Ht & Hn & Hf).
  destruct (ToBoolean (FunctionComparator.raw this e1 e2)) eqn:E.
  - left. now apply Ht.
  - destruct (FunctionComparator.raw this e1 e2) as [| |b|n|s|d|c r] eqn:R;
      try (right; left; now apply Hf).
    destruct (Hn n eq_refl eq_refl) as [Hc [->| ->]].
    + right; right. now split.
    + now left.
Qed.

End FunctionComparatorMore.

(** X10.  When the raw result of the wrapped value is not a number, a
    FunctionComparator returns 0 if it is truthy and 1 if it is falsy; so
    a wrapped predicate returning true or false gives 0 or 1. *)
Theorem FunctionComparator_predicate
  (tk : Toolkit) (this : FunctionComparator.t) (e1 e2 : value) :
  (Types.isNumber (FunctionComparator.raw this e1 e2) = false ->
   compare (FunctionComparator this) e1 e2
   = if ToBoolean (FunctionComparator.raw this e1 e2) then Fin 0 else Fin 1)
  /\ (forall b : bool,
         FunctionComparator.raw this e1 e2 = VBoolean b ->
         compare (FunctionComparator this) e1 e2
         = if b then Fin 0 else Fin 1).
Proof.
  split.
  - apply compare_non_number.
  - intros b H. cbn [compare FunctionComparator].
    rewrite compare_non_number by now rewrite H.
    now rewrite H.
Qed.

Lemma FunctionComparator_predicate_witness :
  compare (@FunctionComparator Sample.toolkit
             (FunctionComparator.mk
                (Func (mkFunction 2 (fun a b => VBoolean (strict_eq a b))))))
    (VString (str "a")) (VString (str "b")) = Fin 1.
Proof.
  apply (FunctionComparator_predicate Sample.toolkit
           (FunctionComparator.mk
              (Func (mkFunction 2 (fun a b => VBoolean (strict_eq a b)))))
           (VString (str "a")) (VString (str "b"))).
  reflexivity.
Defined.

(** X11.  A FunctionComparator returns only 0, 1 or NaN, and NaN only when
    the raw result of the wrapped value is NaN; it never returns a
    negative number. *)
Theorem FunctionComparator_results
  (tk : Toolkit) (this : FunctionComparator.t) (e1 e2 : value) :
  (compare (FunctionComparator this) e1 e2 = Fin 0
   \/ compare (FunctionComparator this) e1 e2 = Fin 1
   \/ (compare (FunctionComparator this) e1 e2 = NaN
       /\ FunctionComparator.raw this e1 e2 = VNumber NaN))
  /\ ~ negative (compare (FunctionComparator this) e1 e2).
Proof.
  split; [apply compare_range|].
  cbn [compare FunctionComparator]. intros (z & H & L).
  destruct (compare_range this e1 e2) as [E|[E|[E _]]];
    rewrite E in H; inversion H; lia.
Qed.

Lemma FunctionComparator_results_witness :
  ~ negative
      (compare (@FunctionComparator Sample.toolkit
                  (FunctionComparator.mk
                     (instance (@ObjectComparator Sample.conversions
                                  Sample.toolkit))))
         (VNumber (Fin 3)) (VNumber (Fin 5))).
Proof.
  apply (FunctionComparator_results Sample.toolkit
           (FunctionComparator.mk
              (instance (@ObjectComparator Sample.conversions Sample.toolkit)))
           (VNumber (Fin 3)) (VNumber (Fin 5))).
Defined.

(** ** Further properties of the composite comparator *)

Section CompositeComparatorMore.
Context {tk : Toolkit}.
Import CompositeComparator Calls.

Lemma unstarted_eta (this : t) :
  started this = false -> mk (comps this) false = this.
Proof. destruct this as [chain s]. simpl. now intros ->. Qed.

Lemma run_adds (cs : list candidate) :
  forall this : t,
    started this = false ->
    Forall (fun c => judgeFuncType c <> Functions.UNKNOWN) cs ->
    run (map AddComparator cs) this
    = (map (fun _ => Added (Return tt)) cs,
       mk (comps this ++ map FunctionComparator.mk cs) false).
Proof.
  induction cs as [|c cs IH]; intros this Hs Hok.
  - cbn [map run]. rewrite app_nil_r. now rewrite unstarted_eta.
  - inversion Hok as [|? ? Hc Hcs]; subst.
    cbn [map]. rewrite run_cons. unfold step.
    rewrite addComparator_fresh by assumption. cbn [fst snd].
    rewrite IH; [|reflexivity|exact Hcs]. cbn [fst snd comps].
    now rewrite <- app_assoc.
Qed.

Lemma first_nonzero_app (pre rest : list number) :
  Forall (fun r => r = Fin 0) pre ->
  first_nonzero (pre ++ rest) = first_nonzero rest.
Proof.
  induction 1 as [|r pre Hr _ IH]; [reflexivity|].
  subst r. exact IH.
Qed.

Lemma first_nonzero_all_zero (results : list number) :
  Forall (fun r => r = Fin 0) results -> first_nonzero results = Fin 0.
Proof.
  intros H. rewrite <- (app_nil_r results). now rewrite first_nonzero_app.
Qed.

Lemma first_nonzero_predicates (f : FunctionComparator.t -> number)
  (p : FunctionComparator.t -> bool) (chain : list FunctionComparator.t) :
  Forall (fun c => f c = if p c then Fin 0 else Fin 1) chain ->
  first_nonzero (map f chain) = if forallb p chain then Fin 0 else Fin 1.
Proof.
  induction 1 as [|c chain Hc _ IH]; [reflexivity|].
  cbn [map first_nonzero forallb]. rewrite Hc.
  destruct (p c); [exact IH|reflexivity].
Qed.

(** The composite built from the entries of [funcs] that are not null,
    started from the state [this]. *)
Lemma wrap_accepted (funcs : list candidate) :
  forall this : t,
    started this = false ->
    Forall (fun c => neq_null c = true ->
                     judgeFuncType c <> Functions.UNKNOWN) funcs ->
    Collects.forEach funcs
      (fun c comparator =>
         match addComparator c comparator with
         | (Throw e, _) => Throw e
         | (Return _, comparator') => Return comparator'
         end)
      neq_null (fun _ _ => false) this
    = Return (mk (comps this
                  ++ map FunctionComparator.mk (filter neq_null funcs))
                 false).
Proof.
  induction funcs as [|c funcs IH]; intros this Hs Hok.
  - cbn [Collects.forEach filter map]. rewrite app_nil_r.
    now rewrite unstarted_eta.
  - inversion Hok as [|? ? Hc Hcs]; subst.
    cbn [Collects.forEach filter]. destruct (neq_null c) eqn:E.
    + rewrite addComparator_fresh by auto.
      rewrite IH; [|reflexivity|exact Hcs]. cbn [comps map].
      now rewrite <- app_assoc.
    + now apply IH.
Qed.

Lemma wrap_rejected (pre : list candidate) (c : candidate)
  (post : list candidate) :
  forall this : t,
    started this = false ->
    Forall (fun c => neq_null c = true ->
                     judgeFuncType c <> Functions.UNKNOWN) pre ->
    neq_null c = true ->
    judgeFuncType c = Functions.UNKNOWN ->
    Collects.forEach (pre ++ c :: post)
      (fun c comparator =>
         match addComparator c comparator with
         | (Throw e, _) => Throw e
         | (Return _, comparator') => Return comparator'
         end)
      neq_null (fun _ _ => false) this
    = Throw (IllegalArgumentException
               (Some "argument is not a function"%string)).
Proof.
  induction pre as [|p pre IH]; intros this Hs Hok Hn Hu.
  - cbn [app Collects.forEach]. rewrite Hn. unfold addComparator.
    rewrite Hs. cbn [negb]. now rewrite (new_unknown c Hu).
  - inversion Hok as [|? ? Hp Hpre]; subst.
    cbn [app Collects.forEach]. destruct (neq_null p) eqn:E.
    + rewrite addComparator_fresh by auto. now apply IH.
    + now apply IH.
Qed.

End CompositeComparatorMore.

(** X12.  Before the first [compare], a run of [addComparator] calls whose
    arguments the classifier accepts all return normally and append the
    wrapped arguments at the end of the chain, in the order of the calls,
    leaving the composite unstarted. *)
Theorem CompositeComparator_addComparator_appends
  (tk : Toolkit) (this : CompositeComparator.t) (cs : list candidate) :
  CompositeComparator.started this = false ->
  Forall (fun c => judgeFuncType c <> Functions.UNKNOWN) cs ->
  Calls.run (map Calls.AddComparator cs) this
  = (map (fun _ => Calls.Added (Return tt)) cs,
     CompositeComparator.mk
       (CompositeComparator.comps this ++ map FunctionComparator.mk cs)
       false).
Proof. intros Hs Hok. now apply run_adds. Qed.

Lemma CompositeComparator_addComparator_appends_witness :
  snd (@Calls.run Sample.toolkit
         (map Calls.AddComparator
            [instance IsComparator; instance always_zero])
         CompositeComparator.new)
  = CompositeComparator.mk
      [FunctionComparator.mk (instance IsComparator);
       FunctionComparator.mk (instance always_zero)] false.
Proof.
  rewrite (CompositeComparator_addComparator_appends Sample.toolkit
             CompositeComparator.new
             [instance IsComparator; instance always_zero]).
  - reflexivity.
  - reflexivity.
  - repeat constructor; discriminate.
Defined.

(** X13.  Before the first [compare], [addComparator] with an argument the
    classifier rejects throws the IllegalArgumentException of the
    FunctionComparator constructor and leaves the composite exactly as it
    was: nothing is added and it stays unstarted. *)
Theorem CompositeComparator_addComparator_rejects
  (tk : Toolkit) (this : CompositeComparator.t) (comparator : candidate) :
  CompositeComparator.started this = false ->
  judgeFuncType comparator = Functions.UNKNOWN ->
  CompositeComparator.addComparator comparator this
  = (Throw (IllegalArgumentException
              (Some "argument is not a function"%string)),
     this).
Proof.
  intros Hs Hu. unfold CompositeComparator.addComparator.
  rewrite Hs. cbn [negb]. now rewrite (new_unknown comparator Hu).
Qed.

Lemma CompositeComparator_addComparator_rejects_witness :
  @CompositeComparator.addComparator Sample.toolkit
    (Plain (VString (str "x"))) CompositeComparator.new
  = (Throw (IllegalArgumentException
              (Some "argument is not a function"%string)),
     CompositeComparator.new).
Proof.
  apply (CompositeComparator_addComparator_rejects Sample.toolkit
           CompositeComparator.new (Plain (VString (str "x")))).
  - reflexivity.
  - reflexivity.
Defined.

(** X14.  [compare] on a composite stops at the first stored comparator
    whose result is not 0: when all the stored comparators before it
    return 0, its result is returned whatever the comparators after it
    would return; and when every stored comparator of a non-empty chain
    returns 0, the result is 0. *)
Theorem CompositeComparator_short_circuit
  (tk : Toolkit) (e1 e2 : value) (s : bool) :
  (forall (pre : list FunctionComparator.t) (c : FunctionComparator.t)
          (post : list FunctionComparator.t),
      Forall (fun p => compare (FunctionComparator p) e1 e2 = Fin 0) pre ->
      compare (FunctionComparator c) e1 e2 <> Fin 0 ->
      compare CompositeComparator e1 e2
        (CompositeComparator.mk (pre ++ c :: post) s)
      = (Return (compare (FunctionComparator c) e1 e2),
         CompositeComparator.mk (pre ++ c :: post) true))
  /\ (forall chain : list FunctionComparator.t,
         chain <> [] ->
         Forall (fun p => compare (FunctionComparator p) e1 e2 = Fin 0) chain ->
         compare CompositeComparator e1 e2 (CompositeComparator.mk chain s)
         = (Return (Fin 0), CompositeComparator.mk chain true)).
Proof.
  split.
  - intros pre c post Hpre Hc.
    rewrite compare_nonempty by (cbn; now destruct pre).
    cbn [CompositeComparator.comps]. f_equal. f_equal.
    rewrite map_app. rewrite first_nonzero_app.
    + cbn [map first_nonzero].
      destruct (num_neq (FunctionComparator.compare_ c e1 e2) 0) eqn:E;
        [reflexivity|]. apply num_neq_false in E. contradiction.
    + apply Forall_map. exact Hpre.
  - intros chain Hne Hall.
    rewrite compare_nonempty by assumption.
    cbn [CompositeComparator.comps]. f_equal. f_equal.
    apply first_nonzero_all_zero. apply Forall_map. exact Hall.
Qed.

Lemma CompositeComparator_short_circuit_witness :
  fst (compare (@CompositeComparator Sample.toolkit)
         (VNumber (Fin 1)) (VNumber (Fin 2))
         (CompositeComparator.mk
            [FunctionComparator.mk (instance always_zero);
             FunctionComparator.mk
               (Func (mkFunction 2 (fun a b => VBoolean (strict_eq a b))));
             FunctionComparator.mk (instance always_zero)] false))
  = Return (Fin 1).
Proof.
  destruct (CompositeComparator_short_circuit Sample.toolkit
              (VNumber (Fin 1)) (VNumber (Fin 2)) false) as [H _].
  specialize (H [FunctionComparator.mk (instance always_zero)]
                (FunctionComparator.mk
                   (Func (mkFunction 2 (fun a b => VBoolean (strict_eq a b)))))
                [FunctionComparator.mk (instance always_zero)]).
  cbn [app] in H. rewrite H.
  - reflexivity.
  - repeat constructor.
  - discriminate.
Defined.

(** X16.  On a composite whose stored comparators all give raw results
    that are not numbers, such as predicates returning true or false,
    [compare] returns 0 when every raw result is truthy and 1 as soon as
    one is falsy: the composite is the conjunction of its predicates. *)
Theorem CompositeComparator_of_predicates
  (tk : Toolkit) (this : CompositeComparator.t) (e1 e2 : value) :
  CompositeComparator.comps this <> [] ->
  Forall (fun c => Types.isNumber (FunctionComparator.raw c e1 e2) = false)
         (CompositeComparator.comps this) ->
  fst (compare CompositeComparator e1 e2 this)
  = Return (if forallb (fun c => ToBoolean (FunctionComparator.raw c e1 e2))
                       (CompositeComparator.comps this)
            then Fin 0 else Fin 1).
Proof.
  intros Hne Hall. rewrite compare_nonempty by assumption. cbn [fst].
  f_equal. apply first_nonzero_predicates.
  apply Forall_forall. intros c Hc.
  apply compare_non_number.
  rewrite Forall_forall in Hall. now apply Hall.
Qed.

Lemma CompositeComparator_of_predicates_witness :
  fst (compare (@CompositeComparator Sample.toolkit)
         (VNumber (Fin 1)) (VNumber (Fin 2))
         (CompositeComparator.mk
            [FunctionComparator.mk
               (Func (mkFunction 2 (fun _ _ => VBoolean true)));
             FunctionComparator.mk
               (Func (mkFunction 2 (fun a b => VBoolean (strict_eq a b))))]
            false))
  = Return (Fin 1).
Proof.
  rewrite (CompositeComparator_of_predicates Sample.toolkit).
  - reflexivity.
  - discriminate.
  - repeat constructor.
Defined.

(** X17.  [wrapComparators] skips the entries that are null or undefined
    and wraps the others in their order into an unstarted composite, as
    long as the classifier accepts each of them; at the first entry that
    is not null and that the classifier rejects it throws the
    IllegalArgumentException of the FunctionComparator constructor and
    returns no composite. *)
Theorem wrapComparators_spec (tk : Toolkit) :
  (forall funcs : list candidate,
      Forall (fun c => neq_null c = true ->
                       judgeFuncType c <> Functions.UNKNOWN) funcs ->
      wrapComparators funcs
      = Return (CompositeComparator.mk
                  (map FunctionComparator.mk (filter neq_null funcs)) false))
  /\ (forall (pre : list candidate) (c : candidate) (post : list candidate),
         Forall (fun c => neq_null c = true ->
                          judgeFuncType c <> Functions.UNKNOWN) pre ->
         neq_null c = true ->
         judgeFuncType c = Functions.UNKNOWN ->
         wrapComparators (pre ++ c :: post)
         = Throw (IllegalArgumentException
                    (Some "argument is not a function"%string))).
Proof.
  split.
  - intros funcs H. unfold wrapComparators.
    now rewrite wrap_accepted.
  - intros pre c post Hpre Hn Hu. unfold wrapComparators.
    now apply wrap_rejected.
Qed.

Lemma wrapComparators_spec_witness :
  @wrapComparators Sample.toolkit
    [Plain VNull; instance IsComparator; Plain VUndefined;
     instance always_zero]
  = Return (CompositeComparator.mk
              [FunctionComparator.mk (instance IsComparator);
               FunctionComparator.mk (instance always_zero)] false)
  /\ @wrapComparators Sample.toolkit
       ([Plain VNull; instance IsComparator]
        ++ Plain (VNumber (Fin 5)) :: [instance always_zero])
     = Throw (IllegalArgumentException
                (Some "argument is not a function"%string)).
Proof.
  destruct (wrapComparators_spec Sample.toolkit) as [H1 H2]. split.
  - rewrite H1; [reflexivity|].
    repeat constructor; discriminate.
  - apply H2; [|reflexivity|reflexivity].
    repeat constructor; discriminate.
Defined.

(** ** Further properties of the generic object comparator *)

Section ObjectComparatorMore.
Context {conv : Conversions} {tk : Toolkit}.

Lemma loose_eq_prim_sym (a b : value) :
  loose_eq_prim a b = loose_eq_prim b a.
Proof.
  destruct a, b; simpl; try reflexivity;
    try apply num_eq_sym; apply str_eq_sym.
Qed.

Lemma loose_eq_sym (a b : value) : loose_eq a b = loose_eq b a.
Proof.
  unfold loose_eq.
  destruct (isObject a) eqn:Ea, (isObject b) eqn:Eb.
  - apply strict_eq_sym.
  - destruct (eq_null b); [reflexivity|apply loose_eq_prim_sym].
  - destruct (eq_null a); [reflexivity|apply loose_eq_prim_sym].
  - apply loose_eq_prim_sym.
Qed.

Lemma loose_eq_null_l (e1 e2 : value) :
  eq_null e1 = true -> loose_eq e1 e2 = eq_null e2.
Proof.
  unfold loose_eq.
  destruct e1; try discriminate; intros _; simpl;
    destruct e2 as [| |[|]| | | |]; reflexivity.
Qed.

Lemma type_eq_sym (t1 t2 : Types.type) :
  Types.type_eq t1 t2 = Types.type_eq t2 t1.
Proof. destruct t1, t2; simpl; try reflexivity. apply Nat.eqb_sym. Qed.

Lemma sub_antisym (a b : number) : sub a b = neg (sub b a).
Proof.
  destruct a as [|x|s], b as [|y|t]; simpl; try reflexivity;
    try (f_equal; lia); try (now destruct s); now destruct s, t.
Qed.

Lemma BooleanComparator_antisym (b1 b2 : bool) :
  compare BooleanComparator (Primitive b1) (Primitive b2)
  = neg (compare BooleanComparator (Primitive b2) (Primitive b1)).
Proof. now destruct b1, b2. Qed.

Lemma ObjectComparator_antisym (e1 e2 : value) :
  compare ObjectComparator e1 e2 = neg (compare ObjectComparator e2 e1).
Proof.
  cbn [compare ObjectComparator]. unfold ObjectComparator.compare_.
  rewrite (loose_eq_sym e2 e1).
  destruct (loose_eq e1 e2) eqn:El; [reflexivity|].
  destruct (eq_null e1) eqn:N1.
  - rewrite (loose_eq_null_l e1 e2 N1) in El. now rewrite El.
  - destruct (eq_null e2) eqn:N2; [reflexivity|]. cbv zeta.
    rewrite (type_eq_sym (Types.getType e2) (Types.getType e1)).
    destruct (Types.type_eq (Types.getType e1) (Types.getType e2)) eqn:Et;
      [|apply sub_antisym].
    apply type_eq_true in Et. rewrite <- Et.
    destruct (Types.type_eq (Types.getType e1) Types.TString);
      [apply StringComparator_antisym|].
    destruct (Types.type_eq (Types.getType e1) Types.TNumber);
      [apply sub_antisym|].
    destruct (Types.type_eq (Types.getType e1) Types.TBoolean);
      [apply BooleanComparator_antisym|].
    destruct (Types.type_eq (Types.getType e1) Types.TDate);
      apply sub_antisym.
Qed.

End ObjectComparatorMore.

Lemma loose_eq_refl (conv : Conversions) (e : value) :
  e <> VNumber NaN -> loose_eq e e = true.
Proof.
  intros H. unfold loose_eq.
  destruct e as [| |[|]|[|z|m]|s|d|c r]; simpl;
    try reflexivity; try congruence.
  - apply Z.eqb_refl.
  - now destruct m.
  - apply str_eq_refl.
  - apply Nat.eqb_refl.
  - apply Nat.eqb_refl.
Qed.

(** X18.  The generic object comparator puts null and undefined before
    every other value: two arguments that are each null or undefined
    compare 0, a null or undefined first argument against any other value
    gives -1, and the other way round gives 1. *)
Theorem ObjectComparator_null_first
  (conv : Conversions) (tk : Toolkit) (e1 e2 : value) :
  (eq_null e1 = true -> eq_null e2 = true ->
   compare ObjectComparator e1 e2 = Fin 0)
  /\ (eq_null e1 = true -> eq_null e2 = false ->
      compare ObjectComparator e1 e2 = Fin (-1)
      /\ compare ObjectComparator e2 e1 = Fin 1).
Proof.
  cbn [compare ObjectComparator]. unfold ObjectComparator.compare_. split.
  - intros H1 H2. now rewrite (loose_eq_null_l e1 e2 H1), H2.
  - intros H1 H2. rewrite (loose_eq_sym e2 e1).
    now rewrite (loose_eq_null_l e1 e2 H1), H1, H2.
Qed.

Lemma ObjectComparator_null_first_witness :
  compare (@ObjectComparator Sample.conversions Sample.toolkit)
    VNull VUndefined = Fin 0
  /\ compare (@ObjectComparator Sample.conversions Sample.toolkit)
       VUndefined (VNumber (Fin (-7))) = Fin (-1).
Proof.
  split.
  - apply (ObjectComparator_null_first Sample.conversions Sample.toolkit
             VNull VUndefined); reflexivity.
  - apply (ObjectComparator_null_first Sample.conversions Sample.toolkit
             VUndefined (VNumber (Fin (-7)))); reflexivity.
Defined.

(** X19.  On two arguments of the same recognised type the generic object
    comparator returns exactly what the comparator of that type returns:
    the number comparator on two numbers that are not the same infinity,
    the boolean comparator on two primitive booleans, the date comparator
    on two different Date objects.  An infinity compared with itself gives
    0, where the number comparator gives NaN; the same Date object
    compared with itself gives 0; and two different objects of one other
    constructor get the result of the identity-hash comparator. *)
Theorem ObjectComparator_same_type (conv : Conversions) (tk : Toolkit) :
  (forall n1 n2 : number,
      (forall s : bool, ~ (n1 = Inf s /\ n2 = Inf s)) ->
      compare ObjectComparator (VNumber n1) (VNumber n2)
      = compare NumberComparator n1 n2)
  /\ (forall s : bool,
         compare ObjectComparator (VNumber (Inf s)) (VNumber (Inf s)) = Fin 0
         /\ compare NumberComparator (Inf s) (Inf s) = NaN)
  /\ (forall b1 b2 : bool,
         compare ObjectComparator (VBoolean b1) (VBoolean b2)
         = compare BooleanComparator (Primitive b1) (Primitive b2))
  /\ (forall d1 d2 : Date,
         date_ref d1 <> date_ref d2 ->
         compare ObjectComparator (VDate d1) (VDate d2)
         = compare DateComparator d1 d2)
  /\ (forall d : Date, compare ObjectComparator (VDate d) (VDate d) = Fin 0)
  /\ (forall ctor r1 r2 : nat,
         r1 <> r2 ->
         compare ObjectComparator (VObject ctor r1) (VObject ctor r2)
         = compare HashedComparator (VObject ctor r1) (VObject ctor r2)).
Proof.
  cbn [compare ObjectComparator]. unfold ObjectComparator.compare_.
  split; [|split; [|split; [|split; [|split]]]].
  - intros [|x|s] [|y|t] H; try reflexivity.
    + change (loose_eq (VNumber (Fin x)) (VNumber (Fin y))) with (x =? y).
      destruct (Z.eqb_spec x y) as [->|Hxy]; [|reflexivity].
      simpl. f_equal. lia.
    + destruct s, t; try reflexivity; exfalso; eapply H; eauto.
  - intros [|]; split; reflexivity.
  - intros [|] [|]; reflexivity.
  - intros d1 d2 H.
    change (loose_eq (VDate d1) (VDate d2))
      with (Nat.eqb (date_ref d1) (date_ref d2)).
    apply Nat.eqb_neq in H. now rewrite H.
  - intros d.
    change (loose_eq (VDate d) (VDate d))
      with (Nat.eqb (date_ref d) (date_ref d)).
    now rewrite Nat.eqb_refl.
  - intros ctor r1 r2 H.
    change (loose_eq (VObject ctor r1) (VObject ctor r2))
      with (Nat.eqb r1 r2).
    apply Nat.eqb_neq in H. rewrite H. cbn [eq_null Types.getType].
    cbv zeta. cbn [Types.type_eq]. now rewrite Nat.eqb_refl.
Qed.

Lemma ObjectComparator_same_type_witness :
  compare (@ObjectComparator Sample.conversions Sample.toolkit)
    (VNumber (Inf false)) (VNumber (Fin 3)) = Inf false
  /\ compare (@ObjectComparator Sample.conversions Sample.toolkit)
    (VDate (mkDate 1 (Fin 500))) (VDate (mkDate 2 (Fin 200))) = Fin 300
  /\ compare (@ObjectComparator Sample.conversions Sample.toolkit)
       (VObject 4 10) (VObject 4 12) = Fin (-2).
Proof.
  destruct (ObjectComparator_same_type Sample.conversions Sample.toolkit)
    as (Hn & _ & _ & Hd & _ & Ho).
  split; [rewrite (Hn (Inf false) (Fin 3)); [reflexivity|]|].
  { intros s [_ H]. discriminate H. }
  split.
  - rewrite (Hd (mkDate 1 (Fin 500)) (mkDate 2 (Fin 200)));
      [reflexivity|discriminate].
  - rewrite (Ho 4%nat 10%nat 12%nat); [reflexivity|discriminate].
Defined.

(** X20.  The generic object comparator returns 0 on every value compared
    with itself, except NaN, for which it returns NaN. *)
Theorem ObjectComparator_reflexive_but_NaN
  (conv : Conversions) (tk : Toolkit) :
  (forall e : value,
      e <> VNumber NaN -> compare ObjectComparator e e = Fin 0)
  /\ compare ObjectComparator (VNumber NaN) (VNumber NaN) = NaN.
Proof.
  split; [|reflexivity].
  intros e H. cbn [compare ObjectComparator].
  unfold ObjectComparator.compare_. now rewrite loose_eq_refl.
Qed.

Lemma ObjectComparator_reflexive_but_NaN_witness :
  compare (@ObjectComparator Sample.conversions Sample.toolkit)
    (VObject 1 2) (VObject 1 2) = Fin 0.
Proof.
  apply (ObjectComparator_reflexive_but_NaN Sample.conversions Sample.toolkit).
  discriminate.
Defined.

(** X21.  The generic object comparator is antisymmetric on all values:
    [compare(e1, e2)] is the negation of [compare(e2, e1)], whichever
    branch decides, so one is negative exactly when the other is
    positive. *)
Theorem ObjectComparator_antisymmetric
  (conv : Conversions) (tk : Toolkit) (e1 e2 : value) :
  compare ObjectComparator e1 e2 = neg (compare ObjectComparator e2 e1)
  /\ (negative (compare ObjectComparator e1 e2) <->
      positive (compare ObjectComparator e2 e1)).
Proof.
  split; [apply ObjectComparator_antisym|].
  rewrite (ObjectComparator_antisym e1 e2).
  unfold negative, positive.
  destruct (compare ObjectComparator e2 e1) as [|r|m]; simpl; split;
    intros (z & H & L); try discriminate; inversion H; subst.
  - exists r. split; [reflexivity|lia].
  - exists (- z). split; [reflexivity|lia].
Qed.

Lemma ObjectComparator_antisymmetric_witness :
  positive (compare (@ObjectComparator Sample.conversions Sample.toolkit)
              (VString (str "b")) (VString (str "a"))).
Proof.
  apply (ObjectComparator_antisymmetric Sample.conversions Sample.toolkit
           (VString (str "a")) (VString (str "b"))).
  exists (-1). split; [reflexivity|lia].
Defined.

(** X22.  The values the generic object comparator reports as equivalent
    do not form an equivalence: two different strings that convert to the
    same number each compare 0 with that number, and yet do not compare 0
    with each other. *)
Theorem ObjectComparator_zero_not_transitive
  (conv : Conversions) (tk : Toolkit) (s1 s2 : jsstring) (n : Z) :
  StringToNumber s1 = Fin n ->
  StringToNumber s2 = Fin n ->
  s1 <> s2 ->
  compare ObjectComparator (VString s1) (VNumber (Fin n)) = Fin 0
  /\ compare ObjectComparator (VNumber (Fin n)) (VString s2) = Fin 0
  /\ compare ObjectComparator (VString s1) (VString s2) <> Fin 0.
Proof.
  intros H1 H2 Hne. split; [|split].
  - apply ObjectComparator_loosely_equal.
    change (loose_eq (VString s1) (VNumber (Fin n)))
      with (num_eq (StringToNumber s1) (Fin n)).
    rewrite H1. apply Z.eqb_refl.
  - apply ObjectComparator_loosely_equal.
    change (loose_eq (VNumber (Fin n)) (VString s2))
      with (num_eq (Fin n) (StringToNumber s2)).
    rewrite H2. apply Z.eqb_refl.
  - rewrite ObjectComparator_strings. cbn [compare StringComparator].
    unfold StringComparator.compare_nullable.
    rewrite StringFacts.compare_strings_lexicographic.
    intros E. apply lexicographic_zero in E. contradiction.
Qed.

Lemma ObjectComparator_zero_not_transitive_witness :
  compare (@ObjectComparator Sample.conversions Sample.toolkit)
    (VString (str "5")) (VNumber (Fin 5)) = Fin 0
  /\ compare (@ObjectComparator Sample.conversions Sample.toolkit)
       (VNumber (Fin 5)) (VString (str "05")) = Fin 0
  /\ compare (@ObjectComparator Sample.conversions Sample.toolkit)
       (VString (str "5")) (VString (str "05")) <> Fin 0.
Proof.
  apply (ObjectComparator_zero_not_transitive Sample.conversions
           Sample.toolkit (str "5") (str "05") 5).
  - reflexivity.
  - reflexivity.
  - discriminate.
Defined.

(** ** The string-projected comparator *)

(** X23.  The string-projected comparator orders values by their text and
    puts null and undefined first: two arguments that are each null or
    undefined compare 0; a null or undefined argument against any other
    value gives -1, and 1 the other way round; two other values get what
    the string comparator returns on their texts, hence 0 exactly when the
    texts are the same; and in all cases [compare(e1, e2)] is the negation
    of [compare(e2, e1)]. *)
Theorem ToStringComparator_orders_by_text (pr : Printing) (e1 e2 : value) :
  (eq_null e1 = true -> eq_null e2 = true ->
   compare ToStringComparator e1 e2 = Fin 0)
  /\ (eq_null e1 = true -> eq_null e2 = false ->
      compare ToStringComparator e1 e2 = Fin (-1)
      /\ compare ToStringComparator e2 e1 = Fin 1)
  /\ (eq_null e1 = false -> eq_null e2 = false ->
      compare ToStringComparator e1 e2
      = compare StringComparator
          (NonNull (toString e1)) (NonNull (toString e2))
      /\ (compare ToStringComparator e1 e2 = Fin 0 <->
          toString e1 = toString e2))
  /\ compare ToStringComparator e1 e2
     = neg (compare ToStringComparator e2 e1).
Proof.
  cbn [compare ToStringComparator]. unfold ToStringComparator.compare_.
  unfold ToStringComparator.comp, ToStringComparator.project.
  split; [|split; [|split]].
  - intros H1 H2. rewrite H1, H2. now destruct e1, e2.
  - intros H1 H2. rewrite H1, H2. now destruct e1.
  - intros H1 H2. rewrite H1, H2. split; [reflexivity|].
    cbn [compare StringComparator]. unfold StringComparator.compare_nullable.
    rewrite StringFacts.compare_strings_lexicographic. split.
    + apply lexicographic_zero.
    + intros ->. apply StringFacts.lexicographic_refl.
  - apply StringComparator_antisym.
Qed.

Lemma ToStringComparator_orders_by_text_witness :
  compare (@ToStringComparator Sample.printing)
    (VNumber (Fin 5)) (VString (str "5")) = Fin 0
  /\ compare (@ToStringComparator Sample.printing)
       VNull (VString (str "")) = Fin (-1).
Proof.
  split.
  - apply (ToStringComparator_orders_by_text Sample.printing
             (VNumber (Fin 5)) (VString (str "5"))); reflexivity.
  - apply (ToStringComparator_orders_by_text Sample.printing
             VNull (VString (str ""))); reflexivity.
Defined.
